(** * The prompt step of the task execution engine

    A shallow embedding of
    - [agents_api/activities/task_steps/prompt_step.py]
      ([_get_integration_arguments], [format_tool], [prompt_step]),
    - [agents_api/autogen/openapi_model.py]
      ([type_property], [validate_python_expression] and the field
      validators built on it),
    - [agents_api/autogen/Executions.py] (the [Transition] record),
    - [agents_api/models/docs/search_docs_by_embedding.py] (the row
      transform and the metadata filter of the query),
    with Python dictionaries as finite maps, exceptions as an error monad
    and the external collaborators (expression evaluator, template
    renderer, the two model backends, the host parser) as section
    variables. *)

From Stdlib Require Import ZArith Ascii String List.
From stdpp Require Import base option list strings gmap fin_maps pretty.

Set Warnings "-register-all".
Local Open Scope string_scope.
Local Open Scope Z_scope.

(** ** Python values, exceptions and a few string methods *)

Module Py.

(** A dictionary key: a [str], or [None] (which Python accepts as a key;
    the prompt step stores under the key [original_tool.type], which may
    be [None]). *)
Abbreviation key := (option string).

(** The JSON-like part of Python's values, plus type objects ([VType],
    the annotation of a pydantic field, by name). *)
Inductive value : Type :=
| VNone
| VBool (b : bool)
| VInt (z : Z)
| VStr (s : string)
| VType (name : string)
| VList (l : list value)
| VDict (d : gmap key value).

Abbreviation dict := (gmap key value).

(** The exceptions the modelled code raises itself or meets in the
    interpreter; [Raised] is whatever a collaborator raises. *)
Inductive exn : Type :=
| ApplicationError (msg : string)
| AssertionError (msg : string)
| AttributeError (msg : string)
| KeyError (k : string)
| TypeError (msg : string)
| ValueError (msg : string)
| Raised (what : string).

Inductive result (A : Type) : Type :=
| Ok (a : A)
| Raise (e : exn).
Arguments Ok {A} a.
Arguments Raise {A} e.

#[export] Instance result_ret : MRet result := @Ok.
#[export] Instance result_bind : MBind result := fun A B f m =>
  match m with
  | Ok a => f a
  | Raise e => Raise e
  end.
#[export] Instance result_fmap : FMap result := fun A B f m =>
  match m with
  | Ok a => Ok (f a)
  | Raise e => Raise e
  end.

(** [bool(v)]. *)
Definition truthy (v : value) : bool :=
  match v with
  | VNone => false
  | VBool b => b
  | VInt z => negb (z =? 0)
  | VStr s => negb (String.eqb s "")
  | VType _ => true
  | VList l => negb (Nat.eqb (length l) 0)
  | VDict d => negb (Nat.eqb (size d) 0)
  end.

(** [x or y] on values. *)
Definition or_ (x y : value) : value := if truthy x then x else y.

(** [v == s] for a string literal [s]. *)
Definition eq_str (v : value) (s : string) : bool :=
  match v with
  | VStr t => String.eqb t s
  | _ => false
  end.

(** [v in l] for a list [l] of string literals. *)
Definition in_strs (v : value) (l : list string) : bool :=
  existsb (eq_str v) l.

(** [v[k]] for a string literal [k]. *)
Definition getitem (v : value) (k : string) : result value :=
  match v with
  | VDict d =>
      match d !! Some k with
      | Some x => Ok x
      | None => Raise (KeyError k)
      end
  | VStr _ => Raise (TypeError "string indices must be integers")
  | VList _ => Raise (TypeError "list indices must be integers or slices, not str")
  | _ => Raise (TypeError "object is not subscriptable")
  end.

(** [d[k]] on a dictionary. *)
Definition dict_getitem (d : dict) (k : string) : result value :=
  match d !! Some k with
  | Some x => Ok x
  | None => Raise (KeyError k)
  end.

(** [d.get(k)]: [None] when the key is absent. *)
Definition dict_get (d : dict) (k : string) : value :=
  default VNone (d !! Some k).

(** [str(v)] inside an f-string, for the values that can be a dictionary
    key (the unhashable ones never reach a format). *)
Definition str (v : value) : string :=
  match v with
  | VNone => "None"
  | VBool true => "True"
  | VBool false => "False"
  | VInt z => pretty z
  | VStr s => s
  | VType n => "<class '" ++ n ++ "'>"
  | VList _ => "[...]"
  | VDict _ => "{...}"
  end.

(** The key a value stands for in [d.get(v)]: unhashable values raise, a
    hashable value that is neither a [str] nor [None] equals no key of a
    dictionary keyed by [str | None]. *)
Inductive hashed : Type :=
| HKey (k : key)
| HOther.

Definition hash (v : value) : result hashed :=
  match v with
  | VStr s => Ok (HKey (Some s))
  | VNone => Ok (HKey None)
  | VList _ => Raise (TypeError "unhashable type: 'list'")
  | VDict _ => Raise (TypeError "unhashable type: 'dict'")
  | _ => Ok HOther
  end.

(** [s.lower()] on ASCII. *)
Definition lower_ascii (c : ascii) : ascii :=
  let n := nat_of_ascii c in
  if (Nat.leb 65 n && Nat.leb n 90)%bool then ascii_of_nat (n + 32) else c.

Fixpoint lower (s : string) : string :=
  match s with
  | EmptyString => EmptyString
  | String c s' => String (lower_ascii c) (lower s')
  end.

(** [s.startswith(p)]. *)
Definition startswith (s p : string) : bool := String.prefix p s.

(** [c.isspace()] on ASCII: tab, LF, VT, FF, CR, FS, GS, RS, US, space. *)
Definition isspace (c : ascii) : bool :=
  let n := nat_of_ascii c in
  ((Nat.leb 9 n && Nat.leb n 13) || (Nat.leb 28 n && Nat.leb n 32))%bool.

Fixpoint lstrip (s : string) : string :=
  match s with
  | EmptyString => EmptyString
  | String c s' => if isspace c then lstrip s' else s
  end.

Fixpoint rstrip (s : string) : string :=
  match s with
  | EmptyString => EmptyString
  | String c s' =>
      match rstrip s' with
      | EmptyString => if isspace c then EmptyString else String c EmptyString
      | r => String c r
      end
  end.

(** [s.strip()]. *)
Definition strip (s : string) : string := rstrip (lstrip s).

(** [s[n:]]. *)
Fixpoint drop_str (n : nat) (s : string) : string :=
  match n, s with
  | O, _ => s
  | S n', String _ s' => drop_str n' s'
  | S _, EmptyString => EmptyString
  end.

End Py.
Import Py.

(** ** Tool records *)

Module Tools.

(** Modelled from the spec: the [Tool] record and its variant payloads
    are declared in [autogen/Tools.py], which is not among the sources;
    the fields are the ones [type_property], [format_tool] and
    [_get_integration_arguments] read.  A tool carries at most one
    populated variant among [function], [system], [integration],
    [api_call] and the model-native kinds. *)
Record FunctionDef : Type := { parameters : value }.

Record IntegrationDef : Type := {
  provider : string;
  method : option string
}.

Record SystemDef : Type := { resource : string; operation : string }.

Record ApiCallDef : Type := { schema_ : value }.

Record Computer20241022Def : Type := {
  display_width_px : Z;
  display_height_px : Z;
  display_number : option Z
}.

Record TextEditor20241022Def : Type := { text_editor_name : string }.

Record Bash20241022Def : Type := { bash_name : string }.

Record Tool : Type := {
  name : string;
  description : option string;
  function : option FunctionDef;
  integration : option IntegrationDef;
  system : option SystemDef;
  api_call : option ApiCallDef;
  computer_20241022 : option Computer20241022Def;
  text_editor_20241022 : option TextEditor20241022Def;
  bash_20241022 : option Bash20241022Def
}.

(** What a pydantic field of an argument model declares. *)
Record FieldInfo : Type := {
  annotation : value;
  is_required : bool
}.

(** What an [arguments] attribute may hold: a plain value ([None], a
    dict, anything else) or a [BaseModel] with its [model_fields] in
    declaration order. *)
Inductive arguments_attr : Type :=
| ArgValue (v : value)
| ArgModel (model_fields : list (string * FieldInfo)).

(** A definition class of an integration ([BraveIntegrationDef],
    [WeatherIntegrationDef], ...): a pydantic model class, subclass of
    [BaseIntegrationDef], whose declared fields are [provider], [method],
    [setup] and [arguments].  The values of [providers_map] are these
    classes themselves, not instances of them. *)
Record BaseIntegrationDef : Type := { class_name : string }.

(** [cls.arguments], the attribute read on the class.  pydantic takes
    the declared fields of a model out of the namespace of the class when
    it builds it (a default, if any, goes to [model_fields]), and its
    metaclass answers a name that is not found with
    [AttributeError(item)]: on every definition class the read raises,
    and no value of the attribute is ever obtained this way. *)
Definition class_arguments (cls : BaseIntegrationDef) : result arguments_attr :=
  Raise (AttributeError "arguments").

(** Truthiness of an optional field holding a pydantic model: a model
    instance is truthy, [None] is not. *)
Definition is_set {A : Type} (o : option A) : bool :=
  match o with
  | Some _ => true
  | None => false
  end.

(** A tool with no variant populated, to build tools from. *)
Definition bare (n : string) : Tool :=
  {| name := n; description := None; function := None; integration := None;
     system := None; api_call := None; computer_20241022 := None;
     text_editor_20241022 := None; bash_20241022 := None |}.

(** The names of the populated variants of a tool, in the order the
    specification lists the kinds. *)
Definition populated_variants (t : Tool) : list string :=
  (if is_set (function t) then ["function"] else [])
  ++ (if is_set (system t) then ["system"] else [])
  ++ (if is_set (integration t) then ["integration"] else [])
  ++ (if is_set (api_call t) then ["api_call"] else [])
  ++ (if is_set (computer_20241022 t) then ["computer_20241022"] else [])
  ++ (if is_set (bash_20241022 t) then ["bash_20241022"] else [])
  ++ (if is_set (text_editor_20241022 t) then ["text_editor_20241022"] else []).

End Tools.

(** ** [autogen/Executions.py]: the transition record *)

Module Executions.

(** [Literal["finish", "wait", "error", "step", "cancelled"]]. *)
Inductive TransitionType : Type :=
| finish
| wait
| error
| step
| cancelled.

Definition TransitionType_name (t : TransitionType) : string :=
  match t with
  | finish => "finish"
  | wait => "wait"
  | error => "error"
  | step => "step"
  | cancelled => "cancelled"
  end.

(** The members of the literal, in the order of the declaration. *)
Definition TransitionType_members : list TransitionType :=
  [finish; wait; error; step; cancelled].

(** Validation of a string against the literal: the member of that name. *)
Definition TransitionType_validate (s : string) : option TransitionType :=
  List.find (fun t => String.eqb (TransitionType_name t) s) TransitionType_members.

Record Transition : Type := {
  type : TransitionType;
  execution_id : string;
  output : dict;
  current : list value;
  next : option (list value);
  id : string;
  metadata : option dict;
  created_at : Z;
  updated_at : Z
}.

(** The unvalidated form of a transition record: [type] still a string. *)
Record RawTransition : Type := {
  raw_type : string;
  raw_execution_id : string;
  raw_output : dict;
  raw_current : list value;
  raw_next : option (list value);
  raw_id : string;
  raw_metadata : option dict;
  raw_created_at : Z;
  raw_updated_at : Z
}.

(** Building a [Transition] from raw fields: the record, when [type] is a member of the
    literal; a validation error otherwise. *)
Definition Transition_validate (r : RawTransition) : result Transition :=
  match TransitionType_validate (raw_type r) with
  | Some t =>
      Ok {| type := t; execution_id := raw_execution_id r;
            output := raw_output r; current := raw_current r;
            next := raw_next r; id := raw_id r; metadata := raw_metadata r;
            created_at := raw_created_at r; updated_at := raw_updated_at r |}
  | None =>
      Raise (ValueError "Input should be 'finish', 'wait', 'error', 'step' or 'cancelled'")
  end.

(** The seven transition types the specification lists. *)
Definition spec_transition_types : list string :=
  ["init"; "step"; "wait"; "resume"; "finish"; "error"; "cancelled"].

(** *** The transition types that exist *)

Lemma TransitionType_validate_name (t : TransitionType) :
  TransitionType_validate (TransitionType_name t) = Some t.
Proof. destruct t; reflexivity. Qed.

Lemma TransitionType_validate_Some (s : string) (t : TransitionType) :
  TransitionType_validate s = Some t -> s = TransitionType_name t.
Proof.
  unfold TransitionType_validate. intros H.
  apply find_some in H as [_ H]. apply String.eqb_eq in H. congruence.
Qed.

(** C8 (amended).  The type of a transition record is one of exactly
    five values, ["finish"], ["wait"], ["error"], ["step"] and
    ["cancelled"]: a record's type prints as one of them, a string
    validates as a transition type if and only if it is one of them, and
    neither ["init"] nor ["resume"] does. *)
Theorem Transition_type_five_values :
  (forall r : Transition,
      TransitionType_name (type r) ∈ ["finish"; "wait"; "error"; "step"; "cancelled"])
  /\ (forall s : string,
        is_Some (TransitionType_validate s)
        <-> s ∈ ["finish"; "wait"; "error"; "step"; "cancelled"])
  /\ TransitionType_validate "init" = None
  /\ TransitionType_validate "resume" = None.
Proof.
  split; [|split; [|split; reflexivity]].
  - intros r. destruct (type r); cbn; rewrite !elem_of_cons; tauto.
  - intros s. split.
    + intros [t Ht]. apply TransitionType_validate_Some in Ht as ->.
      destruct t; cbn; rewrite !elem_of_cons; tauto.
    + intros Hs. repeat (apply elem_of_cons in Hs as [->|Hs]; [eexists; reflexivity|]).
      apply elem_of_nil in Hs. contradiction.
Qed.

(** C8 as stated does not hold: the specification's seven values are not
    the values that validate, ["init"] being one that does not. *)
Lemma Transition_type_not_seven_values :
  ~ (forall s : string,
        s ∈ spec_transition_types <-> is_Some (TransitionType_validate s)).
Proof.
  intros H. destruct (proj1 (H "init")) as [t Ht].
  - unfold spec_transition_types. rewrite !elem_of_cons. tauto.
  - discriminate Ht.
Qed.

End Executions.

(** ** [autogen/openapi_model.py]: the type tag and the validators *)

Module OpenapiModel.

Import Tools.

(** [type_property], attached as the computed field [type] of [Tool],
    [TaskTool], [UpdateToolRequest] and [PatchToolRequest]. *)
Definition type_property (self : Tool) : option string :=
  if is_set (function self) then Some "function"
  else if is_set (integration self) then Some "integration"
  else if is_set (system self) then Some "system"
  else if is_set (api_call self) then Some "api_call"
  else None.

(** The body of a parsed Jinja template, as far as
    [validate_jinja_template] walks it: the children of [Output] nodes
    that are [Name] nodes. *)
Inductive jinja_child : Type :=
| Name (name : string)
| OtherChild.

Inductive jinja_node : Type :=
| Output (nodes : list jinja_child)
| OtherNode.

Section Validators.

(** [ast.parse(source, mode=...)] of the host language: [None] when the
    source parses in that mode, the text of the [SyntaxError] otherwise.
    The validators call it with the default mode, ["exec"], the one that
    parses a whole module (a sequence of statements). *)
Variable ast_parse : string -> string -> option string.

(** [jinja2.Environment().parse(template)]: the body of the template, or
    the text of the [TemplateSyntaxError]. *)
Variable jinja_parse : string -> list jinja_node + string.

Definition validate_python_expression (expr : string) : bool * string :=
  match ast_parse expr "exec" with
  | None => (true, "")
  | Some e => (false, "SyntaxError in '" ++ expr ++ "': " ++ e)
  end.

(** The inner loop of [validate_jinja_template] over the children of one
    [Output] node: the error of the first [Name] that does not validate. *)
Fixpoint validate_jinja_children (template : string) (nodes : list jinja_child)
  : option string :=
  match nodes with
  | [] => None
  | Name n :: rest =>
      let '(is_valid, error) := validate_python_expression n in
      if is_valid then validate_jinja_children template rest
      else Some ("Invalid Python expression in Jinja template '" ++ template
                 ++ "': " ++ error)
  | OtherChild :: rest => validate_jinja_children template rest
  end.

Fixpoint validate_jinja_body (template : string) (body : list jinja_node)
  : option string :=
  match body with
  | [] => None
  | Output nodes :: rest =>
      match validate_jinja_children template nodes with
      | Some e => Some e
      | None => validate_jinja_body template rest
      end
  | OtherNode :: rest => validate_jinja_body template rest
  end.

Definition validate_jinja_template (template : string) : bool * string :=
  match jinja_parse template with
  | inl body =>
      match validate_jinja_body template body with
      | Some e => (false, e)
      | None => (true, "")
      end
  | inr e => (false, "TemplateSyntaxError in '" ++ template ++ "': " ++ e)
  end.

(** The loop shared by the validators of a map of expressions
    ([for key, expr in v.items()]): the first invalid expression raises
    [ValueError] with the validator's own wording [what]. *)
Fixpoint validate_items (what : string) (items : list (string * string))
  : result unit :=
  match items with
  | [] => Ok tt
  | (k, expr) :: rest =>
      let '(is_valid, error) := validate_python_expression expr in
      if is_valid then validate_items what rest
      else Raise (ValueError ("Invalid Python expression in " ++ what ++ " '"
                              ++ k ++ "': " ++ error))
  end.

Definition validate_evaluate_expressions (v : list (string * string))
  : result (list (string * string)) :=
  _ ← validate_items "key" v; Ok v.

Definition validate_set_expressions (v : list (string * string))
  : result (list (string * string)) :=
  _ ← validate_items "set key" v; Ok v.

Definition validate_return_expressions (v : list (string * string))
  : result (list (string * string)) :=
  _ ← validate_items "return key" v; Ok v.

(** [arguments] of a yield step: a map of expressions, or the literal
    ["_"], which is not a dict and passes unchecked. *)
Definition validate_yield_arguments (v : list (string * string) + string)
  : result (list (string * string) + string) :=
  match v with
  | inl items => _ ← validate_items "yield arguments key" items; Ok v
  | inr _ => Ok v
  end.

(** [arguments] of a tool call: only the entries that are strings are
    validated. *)
Fixpoint validate_arguments_items (items : list (string * value)) : result unit :=
  match items with
  | [] => Ok tt
  | (k, VStr expr) :: rest =>
      let '(is_valid, error) := validate_python_expression expr in
      if is_valid then validate_arguments_items rest
      else Raise (ValueError ("Invalid Python expression in arguments key '"
                              ++ k ++ "': " ++ error))
  | _ :: rest => validate_arguments_items rest
  end.

Definition validate_arguments (v : list (string * value) + string)
  : result (list (string * value) + string) :=
  match v with
  | inl items => _ ← validate_arguments_items items; Ok v
  | inr _ => Ok v
  end.

Definition validate_if_expression (v : string) : result string :=
  let '(is_valid, error) := validate_python_expression v in
  if is_valid then Ok v
  else Raise (ValueError ("Invalid Python expression in if condition: " ++ error)).

Definition validate_over_expression (v : string) : result string :=
  let '(is_valid, error) := validate_python_expression v in
  if is_valid then Ok v
  else Raise (ValueError ("Invalid Python expression in over: " ++ error)).

Definition validate_reduce_expression (v : option string) : result (option string) :=
  match v with
  | Some e =>
      let '(is_valid, error) := validate_python_expression e in
      if is_valid then Ok v
      else Raise (ValueError ("Invalid Python expression in reduce: " ++ error))
  | None => Ok v
  end.

Definition validate_log_template (v : string) : result string :=
  let '(is_valid, error) := validate_jinja_template v in
  if is_valid then Ok v
  else Raise (ValueError ("Invalid Jinja template in log: " ++ error)).

(** *** What the validators accept *)

Lemma validate_python_expression_valid (expr : string) :
  (validate_python_expression expr).1 = true <-> ast_parse expr "exec" = None.
Proof.
  unfold validate_python_expression.
  destruct (ast_parse expr "exec"); cbn; split; congruence.
Qed.

Lemma validate_items_Ok (what : string) (items : list (string * string)) :
  validate_items what items = Ok tt
  <-> Forall (fun kv => ast_parse kv.2 "exec" = None) items.
Proof.
  induction items as [|[k expr] items IH]; cbn.
  - split; [constructor | reflexivity].
  - unfold validate_python_expression.
    destruct (ast_parse expr "exec") as [e|] eqn:He.
    + split; [discriminate|]. intros H. inversion H; subst. cbn in *. congruence.
    + rewrite IH. split.
      * intros H. constructor; assumption.
      * intros H. inversion H; assumption.
Qed.

(** C7, what the code does.  The validator of an [evaluate] step accepts
    a map of expressions exactly when the host parser accepts each of
    them in mode ["exec"], the mode for a module: whatever parses as a
    sequence of statements (an import, an assignment) is accepted. *)
Theorem validate_evaluate_expressions_accepts (v : list (string * string)) :
  validate_evaluate_expressions v = Ok v
  <-> Forall (fun kv => ast_parse kv.2 "exec" = None) v.
Proof.
  rewrite <- (validate_items_Ok "key"). unfold validate_evaluate_expressions.
  destruct (validate_items "key" v) as [[]|e]; cbn; split; congruence.
Qed.

(** *** Which entry a validator reports, and what it never looks at *)

Lemma validate_items_first_invalid (what : string)
    (valid : list (string * string)) (k expr : string)
    (rest : list (string * string)) (e : string) :
  Forall (fun kv => ast_parse kv.2 "exec" = None) valid ->
  ast_parse expr "exec" = Some e ->
  validate_items what (valid ++ (k, expr) :: rest)%list
  = Raise (ValueError ("Invalid Python expression in " ++ what ++ " '" ++ k
                       ++ "': " ++ "SyntaxError in '" ++ expr ++ "': " ++ e)).
Proof.
  intros Hvalid He. induction Hvalid as [|[k0 expr0] valid Hk0 _ IH]; cbn.
  - unfold validate_python_expression. rewrite He. reflexivity.
  - unfold validate_python_expression at 1. cbn in Hk0. rewrite Hk0. exact IH.
Qed.

(** X17.  The validators of [evaluate], [set], [return] and the
    arguments of [yield] stop at the first expression, in the order of
    the map, that does not parse: the error names that entry's key and
    carries the parser's message; later entries are not looked at. *)
Theorem map_validators_report_first_invalid
    (valid : list (string * string)) (k expr : string)
    (rest : list (string * string)) (e : string) :
  Forall (fun kv => ast_parse kv.2 "exec" = None) valid ->
  ast_parse expr "exec" = Some e ->
  let v := (valid ++ (k, expr) :: rest)%list in
  let error := "SyntaxError in '" ++ expr ++ "': " ++ e in
  validate_evaluate_expressions v
    = Raise (ValueError ("Invalid Python expression in key '" ++ k ++ "': " ++ error))
  /\ validate_set_expressions v
     = Raise (ValueError ("Invalid Python expression in set key '" ++ k ++ "': " ++ error))
  /\ validate_return_expressions v
     = Raise (ValueError ("Invalid Python expression in return key '" ++ k ++ "': "
                          ++ error))
  /\ validate_yield_arguments (inl v)
     = Raise (ValueError ("Invalid Python expression in yield arguments key '" ++ k
                          ++ "': " ++ error)).
Proof.
  intros Hvalid He v error.
  unfold validate_evaluate_expressions, validate_set_expressions,
    validate_return_expressions, validate_yield_arguments, v.
  rewrite !(validate_items_first_invalid _ valid k expr rest e Hvalid He).
  repeat split; reflexivity.
Qed.

(** X18.  The validators of [set], [return] and the arguments of
    [yield] accept a map exactly when every expression in it parses in
    mode ["exec"], and then return it unchanged; arguments of [yield]
    that are not a map (the literal ["_"]) are accepted unseen. *)
Theorem map_validators_accept (v : list (string * string)) (other : string) :
  (validate_set_expressions v = Ok v
   <-> Forall (fun kv => ast_parse kv.2 "exec" = None) v)
  /\ (validate_return_expressions v = Ok v
      <-> Forall (fun kv => ast_parse kv.2 "exec" = None) v)
  /\ (validate_yield_arguments (inl v) = Ok (inl v)
      <-> Forall (fun kv => ast_parse kv.2 "exec" = None) v)
  /\ validate_yield_arguments (inr other) = Ok (inr other).
Proof.
  unfold validate_set_expressions, validate_return_expressions,
    validate_yield_arguments.
  rewrite <- (validate_items_Ok "set key" v) at 1.
  rewrite <- (validate_items_Ok "return key" v) at 1.
  rewrite <- (validate_items_Ok "yield arguments key" v).
  repeat split;
    try (destruct (validate_items _ v) as [[]|e]; cbn; congruence).
Qed.

Lemma validate_arguments_items_Ok (items : list (string * value)) :
  validate_arguments_items items = Ok tt
  <-> Forall (fun kv => forall expr, kv.2 = VStr expr -> ast_parse expr "exec" = None)
        items.
Proof.
  induction items as [|[k v] items IH].
  - split; [constructor | reflexivity].
  - destruct v; cbn [validate_arguments_items];
      try (rewrite IH; split;
           [ intros H; constructor; [intros expr Heq; discriminate Heq | exact H]
           | intros H; inversion H; assumption ]).
    unfold validate_python_expression.
    destruct (ast_parse s "exec") as [e|] eqn:He.
    + split; [discriminate|]. intros H. inversion H as [|? ? Hs _]; subst.
      specialize (Hs s eq_refl). congruence.
    + rewrite IH. split.
      * intros H. constructor; [|exact H]. intros expr [= <-]. exact He.
      * intros H. inversion H; assumption.
Qed.

(** X19.  The validator of a tool call's arguments accepts a map
    exactly when every entry that is a string parses in mode ["exec"]:
    an entry that is not a string (a number, a list, a nested map) is
    never validated, and arguments that are not a map are accepted as
    they are. *)
Theorem validate_arguments_accepts (items : list (string * value)) (other : string) :
  (validate_arguments (inl items) = Ok (inl items)
   <-> Forall (fun kv => forall expr, kv.2 = VStr expr -> ast_parse expr "exec" = None)
         items)
  /\ validate_arguments (inr other) = Ok (inr other).
Proof.
  split; [|reflexivity].
  rewrite <- validate_arguments_items_Ok. unfold validate_arguments.
  destruct (validate_arguments_items items) as [[]|e]; cbn; split; congruence.
Qed.

Lemma validate_jinja_children_None (template : string) (nodes : list jinja_child) :
  validate_jinja_children template nodes = None
  <-> forall n, Name n ∈ nodes -> ast_parse n "exec" = None.
Proof.
  induction nodes as [|child nodes IH]; cbn.
  - split; [|reflexivity]. intros _ n Hn. apply elem_of_nil in Hn. contradiction.
  - destruct child as [n0|].
    + unfold validate_python_expression.
      destruct (ast_parse n0 "exec") as [e|] eqn:He.
      * split; [discriminate|]. intros H. rewrite (H n0) in He by left. discriminate.
      * rewrite IH. split.
        -- intros H n Hn. apply elem_of_cons in Hn as [[= ->]|Hn]; [exact He | auto].
        -- intros H n Hn. apply H. right. exact Hn.
    + rewrite IH. split.
      * intros H n Hn. apply elem_of_cons in Hn as [Hn|Hn]; [discriminate Hn | auto].
      * intros H n Hn. apply H. right. exact Hn.
Qed.

Lemma validate_jinja_body_None (template : string) (body : list jinja_node) :
  validate_jinja_body template body = None
  <-> forall nodes n, Output nodes ∈ body -> Name n ∈ nodes -> ast_parse n "exec" = None.
Proof.
  induction body as [|node body IH]; cbn.
  - split; [|reflexivity]. intros _ nodes n Hn. apply elem_of_nil in Hn. contradiction.
  - destruct node as [nodes0|].
    + destruct (validate_jinja_children template nodes0) as [e|] eqn:Hc.
      * split; [discriminate|]. intros H.
        assert (validate_jinja_children template nodes0 = None) as Hnone
          by (apply validate_jinja_children_None; intros n Hn; apply (H nodes0); [left | exact Hn]).
        congruence.
      * rewrite IH.
        pose proof (proj1 (validate_jinja_children_None template nodes0) Hc) as Hc'.
        split.
        -- intros H nodes n Hnodes Hn.
           apply elem_of_cons in Hnodes as [[= ->]|Hnodes]; [auto | eauto].
        -- intros H nodes n Hnodes Hn. apply (H nodes); [right; exact Hnodes | exact Hn].
    + rewrite IH. split.
      * intros H nodes n Hnodes Hn.
        apply elem_of_cons in Hnodes as [Hnodes|Hnodes]; [discriminate Hnodes | eauto].
      * intros H nodes n Hnodes Hn. apply (H nodes); [right; exact Hnodes | exact Hn].
Qed.

(** X20.  The validator of a [log] template accepts a template exactly
    when Jinja parses it and every interpolation that is a bare name,
    directly in an output node of the template's body, parses in mode
    ["exec"]: no other expression inside the template (an attribute
    access, a call, an arithmetic expression) is validated. *)
Theorem validate_log_template_accepts (v : string) :
  validate_log_template v = Ok v
  <-> exists body,
      jinja_parse v = inl body
      /\ forall nodes n,
          Output nodes ∈ body -> Name n ∈ nodes -> ast_parse n "exec" = None.
Proof.
  unfold validate_log_template, validate_jinja_template.
  destruct (jinja_parse v) as [body|e].
  - destruct (validate_jinja_body v body) as [err|] eqn:Hbody; cbn.
    + split; [discriminate|]. intros (body' & [= <-] & H).
      pose proof (proj2 (validate_jinja_body_None v body) H) as Hnone. congruence.
    + split; [|reflexivity]. intros _. exists body. split; [reflexivity|].
      exact (proj1 (validate_jinja_body_None v body) Hbody).
  - cbn. split; [discriminate|]. intros (body & Hb & _). discriminate Hb.
Qed.


End Validators.

(** *** The derived type tag *)

(** X1.  A tool whose only populated variant is [function],
    [integration], [system] or [api_call] has the name of that variant as
    its type. *)
Lemma type_property_variant (t : Tool) (k : string) :
  populated_variants t = [k] ->
  k ∈ ["function"; "system"; "integration"; "api_call"] ->
  type_property t = Some k.
Proof.
  unfold populated_variants, type_property.
  destruct (function t), (system t), (integration t), (api_call t),
    (computer_20241022 t), (text_editor_20241022 t), (bash_20241022 t);
    cbn; intros [= <-]; try reflexivity;
    rewrite !elem_of_cons, elem_of_nil; intros H; decompose [or] H;
    discriminate || contradiction.
Qed.

(** A tool whose only populated variant is model-native. *)
Definition computer_tool : Tool :=
  {| name := "computer"; description := None;
     function := None; integration := None; system := None; api_call := None;
     computer_20241022 :=
       Some {| display_width_px := 1024; display_height_px := 768;
               display_number := Some 1 |};
     text_editor_20241022 := None; bash_20241022 := None |}.

(** C9, at the failing input.  The only populated variant of
    [computer_tool] is [computer_20241022], and its derived type is
    [None], not the name of that variant. *)
Theorem type_property_computer_tool :
  populated_variants computer_tool = ["computer_20241022"]
  /\ type_property computer_tool = None.
Proof. split; reflexivity. Qed.

(** X1 at a function tool. *)
Lemma type_property_variant_witness :
  (populated_variants
     {| name := "get_weather"; description := None;
        function := Some {| parameters := VNone |};
        integration := None; system := None; api_call := None;
        computer_20241022 := None; text_editor_20241022 := None;
        bash_20241022 := None |} = ["function"]
   /\ "function" ∈ ["function"; "system"; "integration"; "api_call"])
  /\ type_property
       {| name := "get_weather"; description := None;
          function := Some {| parameters := VNone |};
          integration := None; system := None; api_call := None;
          computer_20241022 := None; text_editor_20241022 := None;
          bash_20241022 := None |} = Some "function".
Proof.
  split; [split; [reflexivity | left]|].
  apply type_property_variant; [reflexivity | left].
Defined.

(** A parser that rejects one source text, to run the validators on. *)
Definition rejects_dangling_plus (source mode : string) : option string :=
  if String.eqb source "1 +" then Some "invalid syntax" else None.

(** X17 at a map whose second expression does not parse. *)
Lemma map_validators_report_first_invalid_witness :
  (Forall (fun kv : string * string => rejects_dangling_plus kv.2 "exec" = None)
     [("a", "1 + 2")]
   /\ rejects_dangling_plus "1 +" "exec" = Some "invalid syntax")
  /\ validate_set_expressions rejects_dangling_plus
       [("a", "1 + 2"); ("b", "1 +"); ("c", "3")]
     = Raise (ValueError
                "Invalid Python expression in set key 'b': SyntaxError in '1 +': invalid syntax").
Proof.
  assert (Forall (fun kv : string * string => rejects_dangling_plus kv.2 "exec" = None)
            [("a", "1 + 2")]) as Hvalid by (repeat constructor).
  split; [split; [exact Hvalid | reflexivity]|].
  exact (proj1 (proj2 (map_validators_report_first_invalid rejects_dangling_plus
                         [("a", "1 + 2")] "b" "1 +" [("c", "3")] "invalid syntax"
                         Hvalid eq_refl))).
Defined.

End OpenapiModel.

(** ** The model backends' data *)

Module Litellm.

(** [litellm.Function]: the field [arguments] is declared [str] and
    holds JSON text. *)
Record Function : Type := { name : string; arguments : string }.

(** [Function(name=.., arguments=..)]: the constructor stores the empty
    text for [None], the text [json.dumps] gives (here [dumps]) for a
    dict, and hands anything else to the validation of the field, which
    takes a [str] as it is and refuses the rest. *)
Definition Function_init (dumps : dict -> result string)
    (name : string) (arguments : value) : result Function :=
  arguments ←
    match arguments with
    | VNone => Ok ""
    | VDict d => dumps d
    | VStr s => Ok s
    | _ => Raise (Raised "ValidationError")
    end;
  Ok {| name := name; arguments := arguments |}.

Record ChatCompletionMessageToolCall : Type := {
  call_id : string;
  call_type : string;
  function : Function
}.

(** [Message], [Choices] and [ModelResponse], over the representation [C]
    of a tool call: [ChatCompletionMessageToolCall] for the objects, a
    dictionary for their [model_dump()]. *)
Record Message (C : Type) : Type := {
  role : string;
  content : option string;
  tool_calls : option (list C)
}.
Arguments role {C} _.
Arguments content {C} _.
Arguments tool_calls {C} _.

(** [Message(role=.., content=.., tool_calls=..)]: the constructor keeps
    a list of tool calls that is not empty and stores [None] for an
    empty one, as it does when no list is given. *)
Definition Message_init {C : Type} (role : string) (content : option string)
    (tool_calls : option (list C)) : Message C :=
  {| role := role; content := content;
     tool_calls :=
       match tool_calls with
       | Some (call :: calls) => Some (call :: calls)
       | _ => None
       end |}.

Record Choices (C : Type) : Type := {
  message : Message C;
  finish_reason : string
}.
Arguments message {C} _.
Arguments finish_reason {C} _.

Record ModelResponse (C : Type) : Type := {
  id : string;
  choices : list (Choices C);
  created : Z;
  model : string;
  object : string
}.
Arguments id {C} _.
Arguments choices {C} _.
Arguments created {C} _.
Arguments model {C} _.
Arguments object {C} _.

(** [model_dump()] of a tool call: a fresh dictionary
    [{"function": {"arguments": .., "name": ..}, "id": .., "type": ..}]. *)
Definition dump_call (c : ChatCompletionMessageToolCall) : dict :=
  {[ Some "function" :=
       VDict {[ Some "arguments" := VStr (arguments (function c));
                Some "name" := VStr (name (function c)) ]};
     Some "id" := VStr (call_id c);
     Some "type" := VStr (call_type c) ]}.

Definition dump_message (m : Message ChatCompletionMessageToolCall) : Message dict :=
  {| role := role m; content := content m;
     tool_calls := fmap (M := option) (fmap (M := list) dump_call) (tool_calls m) |}.

Definition dump_choice (c : Choices ChatCompletionMessageToolCall) : Choices dict :=
  {| message := dump_message (message c); finish_reason := finish_reason c |}.

(** [response.model_dump()]. *)
Definition model_dump (r : ModelResponse ChatCompletionMessageToolCall)
  : ModelResponse dict :=
  {| id := id r; choices := dump_choice <$> choices r;
     created := created r; model := model r; object := object r |}.

End Litellm.

Module Anthropic.

(** A content block of a [BetaMessage]: a [BetaTextBlock] has [type]
    ["text"] and a [text]; a [BetaToolUseBlock] has [type] ["tool_use"],
    a [name] and an [input].  One record with the fields of both, the
    way the prompt step reads them. *)
Record ContentBlock : Type := {
  type : string;
  text : string;
  name : string;
  input : value
}.

Record BetaMessage : Type := {
  id : string;
  content : list ContentBlock;
  model : string;
  stop_reason : option string
}.

Definition TextBlock (t : string) : ContentBlock :=
  {| type := "text"; text := t; name := ""; input := VNone |}.


End Anthropic.

(** ** [activities/task_steps/prompt_step.py] *)

Module PromptStep.

Import Tools OpenapiModel.

(** Modelled from the spec: [StepContext] and [StepOutcome] are declared
    in [common/protocol/tasks.py], and [PromptStep] and [Agent] in the
    generated models, none of them among the sources; the fields are the
    ones [prompt_step] reads.  [model_dump_unset] is
    [current_step.model_dump(exclude_unset=True)], the explicitly set
    fields of the step; [prepare_for_step] is the context data that
    [context.prepare_for_step(include_remote=True)] returns. *)
Record PromptStep : Type := {
  prompt : value;
  unwrap : bool;
  disable_cache : bool;
  model_dump_unset : dict
}.

Record Agent : Type := {
  default_settings : option dict;
  model : option string
}.

Record StepContext : Type := {
  current_step : PromptStep;
  agent : Agent;
  tools : list Tool;
  prepare_for_step : dict
}.

(** The [output] of a prompt step: the content of the single choice
    (unwrapped) or the dumped response. *)
Inductive step_output : Type :=
| OutputContent (c : option string)
| OutputResponse (r : Litellm.ModelResponse dict).

Record StepOutcome : Type := {
  output : step_output;
  next : option value
}.

Definition COMPUTER_USE_BETA_FLAG : string := "computer-use-2024-10-22".

Definition EVAL_PROMPT_PREFIX : string := "$_ ".

(** The literal [["computer_20241022", "bash_20241022",
    "text_editor_20241022"]], written out twice in [prompt_step]. *)
Definition native_kinds : list string :=
  ["computer_20241022"; "bash_20241022"; "text_editor_20241022"].

Definition excluded_keys : list string :=
  ["prompt"; "kind_"; "label"; "unwrap"; "auto_run_tools"; "disable_cache"; "tools"].

Definition opt_str (o : option string) : value :=
  match o with
  | Some s => VStr s
  | None => VNone
  end.

Definition opt_int (o : option Z) : value :=
  match o with
  | Some z => VInt z
  | None => VNone
  end.

(** [providers_map.get(provider)] yields a definition class or, for
    browserbase, a dict of them by method. *)
Inductive provider_entry : Type :=
| Def (d : BaseIntegrationDef)
| Methods (m : gmap string BaseIntegrationDef).

(** Truthiness of an [arguments] attribute. *)
Definition truthy_attr (a : arguments_attr) : bool :=
  match a with
  | ArgValue v => truthy v
  | ArgModel _ => true
  end.

(** The loop over [arguments.model_fields.items()]: each field adds a
    property, a required field also its name to [required]. *)
Fixpoint add_model_fields (fields : list (string * FieldInfo))
    (props : dict) (required : list value) : dict * list value :=
  match fields with
  | [] => (props, required)
  | (fld_name, fld_annotation) :: rest =>
      let props' :=
        <[Some fld_name :=
            VDict {[ Some "type" := annotation fld_annotation;
                     Some "description" := VStr fld_name ]}]> props in
      let required' :=
        if is_required fld_annotation then (required ++ [VStr fld_name])%list
        else required in
      add_model_fields rest props' required'
  end.

Section Collaborators.

(** The definition classes of the integrations, from [autogen/Tools.py]. *)
Variables BraveIntegrationDef DummyIntegrationDef EmailIntegrationDef
  SpiderIntegrationDef WikipediaIntegrationDef WeatherIntegrationDef
  BrowserbaseContextIntegrationDef BrowserbaseExtensionIntegrationDef
  BrowserbaseListSessionsIntegrationDef BrowserbaseCreateSessionIntegrationDef
  BrowserbaseGetSessionIntegrationDef BrowserbaseCompleteSessionIntegrationDef
  BrowserbaseGetSessionLiveUrlsIntegrationDef
  BrowserbaseGetSessionConnectUrlIntegrationDef
  RemoteBrowserIntegrationDef : BaseIntegrationDef.

(** The JSON schema of a system tool's handler
    ([get_handler_with_filtered_params], [tool_decorator] and
    [get_input_jsonschema] together). *)
Variable get_input_jsonschema : option SystemDef -> result dict.

(** [base_evaluate(expr, context_data)]. *)
Variable base_evaluate : string -> dict -> result value.

(** [render_template(messages, context_data, skip_vars=...)]. *)
Variable render_template : list value -> dict -> list string -> result (list value).

(** [client.beta.messages.create(model, messages, tools, max_tokens, betas)]. *)
Variable messages_create :
  string -> list value -> list dict -> Z -> list string -> result Anthropic.BetaMessage.

(** [litellm.acompletion] applied to the keyword arguments
    [completion_data] and to [extra_body]. *)
Variable acompletion :
  dict -> dict -> result (Litellm.ModelResponse Litellm.ChatCompletionMessageToolCall).

(** [int(datetime.now().timestamp())], the ids litellm gives the tool
    calls it constructs (the [i]-th one made for a response),
    [json.dumps] on a dict (the JSON text, or the error of a value that
    does not serialise) and [env.debug]. *)
Variable now : Z.
Variable uuid4 : nat -> string.
Variable json_dumps : dict -> result string.
Variable debug : bool.

Definition providers_map : gmap string provider_entry :=
  {[ "brave" := Def BraveIntegrationDef;
     "dummy" := Def DummyIntegrationDef;
     "email" := Def EmailIntegrationDef;
     "spider" := Def SpiderIntegrationDef;
     "wikipedia" := Def WikipediaIntegrationDef;
     "weather" := Def WeatherIntegrationDef;
     "browserbase" :=
       Methods
         {[ "create_context" := BrowserbaseContextIntegrationDef;
            "install_extension_from_github" := BrowserbaseExtensionIntegrationDef;
            "list_sessions" := BrowserbaseListSessionsIntegrationDef;
            "create_session" := BrowserbaseCreateSessionIntegrationDef;
            "get_session" := BrowserbaseGetSessionIntegrationDef;
            "complete_session" := BrowserbaseCompleteSessionIntegrationDef;
            "get_live_urls" := BrowserbaseGetSessionLiveUrlsIntegrationDef;
            "get_connect_url" := BrowserbaseGetSessionConnectUrlIntegrationDef ]};
     "remote_browser" := Def RemoteBrowserIntegrationDef ]}.

(** The empty object schema [properties] starts as. *)
Definition empty_object_schema : dict :=
  {[ Some "type" := VStr "object";
     Some "properties" := VDict ∅;
     Some "required" := VList [] ]}.

(** [providers_map.get(provider)], then [.get(method)] when that is a
    dict: the definition class, or [None]. *)
Definition lookup_integration (i : IntegrationDef) : option BaseIntegrationDef :=
  match providers_map !! provider i with
  | Some (Methods m) =>
      match method i with
      | Some k => m !! k
      | None => None
      end
  | Some (Def d) => Some d
  | None => None
  end.

Definition _get_integration_arguments (tool : Tool) : result dict :=
  match integration tool with
  | None => Raise (AttributeError "'NoneType' object has no attribute 'provider'")
  | Some i =>
      let properties := empty_object_schema in
      match lookup_integration i with
      | None => Raise (AttributeError "'NoneType' object has no attribute 'arguments'")
      | Some d =>
          arguments ← class_arguments d;
          if negb (truthy_attr arguments) then Ok properties
          else
            match arguments with
            | ArgModel model_fields =>
                let '(props, required) := add_model_fields model_fields ∅ [] in
                Ok (<[Some "required" := VList required]>
                      (<[Some "properties" := VDict props]> properties))
            | ArgValue (VDict a) => Ok (<[Some "properties" := VDict a]> properties)
            | ArgValue _ => Ok properties
            end
      end
  end.

(** [tool.type] is the computed field that [openapi_model.py] attaches to
    [Tool]: [Tool.type = computed_field(property(type_property))]. *)
Definition format_tool (tool : Tool) : result dict :=
  let type := type_property tool in
  if bool_decide (type = Some "computer_20241022") then
    Ok {[ Some "type" := opt_str type;
          Some "name" := VStr (name tool);
          Some "display_width_px" :=
            match computer_20241022 tool with
            | Some c => VInt (display_width_px c)
            | None => VNone
            end;
          Some "display_height_px" :=
            match computer_20241022 tool with
            | Some c => VInt (display_height_px c)
            | None => VNone
            end;
          Some "display_number" :=
            match computer_20241022 tool with
            | Some c => opt_int (display_number c)
            | None => VNone
            end ]}
  else if bool_decide (type ∈ [Some "bash_20241022"; Some "text_editor_20241022"]) then
    Ok {[ Some "type" := opt_str type; Some "name" := VStr (name tool) ]}
  else if bool_decide (type = Some "function") then
    Ok {[ Some "type" := VStr "function";
          Some "function" :=
            VDict {[ Some "name" := VStr (name tool);
                     Some "description" := opt_str (description tool);
                     Some "parameters" :=
                       match function tool with
                       | Some f => parameters f
                       | None => VNone
                       end ]} ]}
  else
    let formatted_function : dict :=
      {[ Some "name" := VStr (name tool);
         Some "description" := opt_str (description tool) ]} in
    formatted_function ←
      (if bool_decide (type = Some "system") then
         json_schema ← get_input_jsonschema (system tool);
         Ok (<[Some "parameters" := VDict json_schema]>
               (<[Some "description" :=
                    or_ (opt_str (description tool))
                        (dict_get json_schema "description")]>
                  formatted_function))
       else if bool_decide (type = Some "integration") && is_set (integration tool) then
         parameters ← _get_integration_arguments tool;
         Ok (<[Some "parameters" := VDict parameters]> formatted_function)
       else if bool_decide (type = Some "api_call") && is_set (api_call tool) then
         Ok (<[Some "parameters" :=
                 match api_call tool with
                 | Some a => schema_ a
                 | None => VNone
                 end]> formatted_function)
       else Ok formatted_function);
    Ok {[ Some "type" := VStr "function";
          Some "function" := VDict formatted_function ]}.

(** *** [prompt_step], lines 159-189: the messages of the prompt *)

Definition should_evaluate_prompt (prompt : value) : bool :=
  match prompt with
  | VStr s => startswith s EVAL_PROMPT_PREFIX
  | _ => false
  end.

(** [isinstance(prompt, (str, list))]. *)
Definition is_str_or_list (v : value) : bool :=
  match v with
  | VStr _ | VList _ => true
  | _ => false
  end.

Definition render_prompt (context : StepContext) : result (list value) :=
  let prompt := prompt (current_step context) in
  let context_data := prepare_for_step context in
  let should_evaluate_prompt := should_evaluate_prompt prompt in
  prompt ←
    match prompt with
    | VStr s =>
        if should_evaluate_prompt then
          prompt ←
            base_evaluate
              (strip (drop_str (String.length EVAL_PROMPT_PREFIX) s)) context_data;
          if negb (is_str_or_list prompt) then
            Raise (ApplicationError
                     "Invalid prompt expression, expected a string or list")
          else Ok prompt
        else Ok prompt
    | _ => Ok prompt
    end;
  let prompt :=
    match prompt with
    | VList l => l
    | _ => [VDict {[ Some "role" := VStr "user"; Some "content" := prompt ]}]
    end in
  if negb should_evaluate_prompt then
    render_template prompt context_data ["developer_id"]
  else Ok prompt.

(** *** Lines 191-221: settings *)

Definition agent_default_settings (context : StepContext) : dict :=
  match default_settings (agent context) with
  | Some d => d
  | None => ∅
  end.

Definition agent_model (context : StepContext) : string :=
  match model (agent context) with
  | Some m => if negb (String.eqb m "") then m else "gpt-4o"
  | None => "gpt-4o"
  end.

(** [model_dump(exclude=excluded_keys, exclude_unset=True)], then
    [passed_settings.update(passed_settings.pop("settings", {}))] (a
    [settings] that was set is a dumped [ChatSettings] or [None]), then the
    removal of [tool_choice] when there are no [tools]. *)
Definition passed_settings (context : StepContext) : result dict :=
  let passed_settings :=
    foldr (fun k d => delete (Some k) d)
          (model_dump_unset (current_step context)) excluded_keys in
  passed_settings ←
    match passed_settings !! Some "settings" with
    | None => Ok passed_settings
    | Some (VDict settings) => Ok (settings ∪ delete (Some "settings") passed_settings)
    | Some _ => Raise (TypeError "object is not iterable")
    end;
  if negb (truthy (dict_get passed_settings "tools")) then
    Ok (delete (Some "tool_choice") passed_settings)
  else Ok passed_settings.

(** *** Lines 223-230: the formatted tools and the reverse map *)

Definition formatted_tools (context : StepContext) : result (list dict) :=
  mapM format_tool (tools context).

(** [fmt_tool.get("name") or fmt_tool.get("function", {}).get("name")]. *)
Definition emitted_name (fmt_tool : dict) : result value :=
  let n := dict_get fmt_tool "name" in
  if truthy n then Ok n
  else
    match fmt_tool !! Some "function" with
    | None => Ok VNone
    | Some (VDict f) => Ok (dict_get f "name")
    | Some _ => Raise (AttributeError "object has no attribute 'get'")
    end.

(** The dict comprehension over [zip(formatted_tools, context.tools)]:
    a later tool of the same emitted name replaces an earlier one. *)
Fixpoint tools_mapping_from (pairs : list (dict * Tool)) (acc : gmap key Tool)
  : result (gmap key Tool) :=
  match pairs with
  | [] => Ok acc
  | (fmt_tool, orig_tool) :: rest =>
      n ← emitted_name fmt_tool;
      h ← hash n;
      tools_mapping_from rest
        match h with
        | HKey k => <[k := orig_tool]> acc
        | HOther => acc
        end
  end.

Definition tools_mapping (formatted_tools : list dict) (tools : list Tool)
  : result (gmap key Tool) :=
  tools_mapping_from (zip formatted_tools tools) ∅.

(** *** Lines 232-318: the native-tools backend *)

(** [any(tool["type"] in [...] for tool in formatted_tools)]. *)
Fixpoint any_native_tool (formatted_tools : list dict) : result bool :=
  match formatted_tools with
  | [] => Ok false
  | tool :: rest =>
      t ← dict_getitem tool "type";
      if in_strs t native_kinds then Ok true else any_native_tool rest
  end.

Fixpoint filtered_tools (formatted_tools : list dict) : result (list dict) :=
  match formatted_tools with
  | [] => Ok []
  | tool :: rest =>
      t ← dict_getitem tool "type";
      rest' ← filtered_tools rest;
      Ok (if in_strs t native_kinds then tool :: rest' else rest')
  end.

(** [[{"role": "user", "content": message["content"]} for message in prompt]]. *)
Definition anthropic_prompt (prompt : list value) : result (list value) :=
  mapM (fun message =>
          c ← getitem message "content";
          Ok (VDict {[ Some "role" := VStr "user"; Some "content" := c ]}))
       prompt.

Definition blocks_of_type (t : string) (content : list Anthropic.ContentBlock)
  : list Anthropic.ContentBlock :=
  List.filter (fun block => String.eqb (Anthropic.type block) t) content.

(** The tool call built from the [i]-th [tool_use] block:
    [ChatCompletionMessageToolCall(type="function", function=Function(
    name=block.name, arguments=block.input))], which is given an id of
    its own. *)
Definition tool_call_of_block (i : nat) (block : Anthropic.ContentBlock)
  : result Litellm.ChatCompletionMessageToolCall :=
  function ←
    Litellm.Function_init json_dumps (Anthropic.name block) (Anthropic.input block);
  Ok {| Litellm.call_id := uuid4 i;
        Litellm.call_type := "function";
        Litellm.function := function |}.

(** The list comprehension over the [tool_use] blocks, the first of
    which is the [i]-th. *)
Fixpoint tool_calls_of_blocks (i : nat) (blocks : list Anthropic.ContentBlock)
  : result (list Litellm.ChatCompletionMessageToolCall) :=
  match blocks with
  | [] => Ok []
  | block :: rest =>
      call ← tool_call_of_block i block;
      calls ← tool_calls_of_blocks (S i) rest;
      Ok (call :: calls)
  end.

(** Lines 263-310: the single choice a Claude response becomes. *)
Definition claude_choice (claude_response : Anthropic.BetaMessage)
  : result (Litellm.Choices Litellm.ChatCompletionMessageToolCall) :=
  let content := Anthropic.content claude_response in
  if Nat.ltb 1 (length (blocks_of_type "text" content)) then
    Raise (ApplicationError "Claude should only return one message")
  else
    let text_block := head (blocks_of_type "text" content) in
    let stop_reason := Anthropic.stop_reason claude_response in
    if bool_decide (stop_reason = Some "tool_use") then
      tool_calls ← tool_calls_of_blocks 0 (blocks_of_type "tool_use" content);
      Ok {| Litellm.message :=
              Litellm.Message_init "assistant" (Anthropic.text <$> text_block)
                (Some tool_calls);
            Litellm.finish_reason := "tool_calls" |}
    else
      match text_block with
      | None =>
          Raise (AssertionError
                   "Claude should always return a text block for stop_reason=stop")
      | Some text_block =>
          Ok {| Litellm.message :=
                  Litellm.Message_init "assistant" (Some (Anthropic.text text_block))
                    None;
                Litellm.finish_reason := "stop" |}
      end.

Definition claude_model_response (claude_response : Anthropic.BetaMessage)
  : result (Litellm.ModelResponse Litellm.ChatCompletionMessageToolCall) :=
  choice ← claude_choice claude_response;
  Ok {| Litellm.id := Anthropic.id claude_response;
        Litellm.choices := [choice];
        Litellm.created := now;
        Litellm.model := Anthropic.model claude_response;
        Litellm.object := "text_completion" |}.

(** *** Lines 320-339: the generic backend *)

(** [completion_data]; [formatted_tools] has just been set to [None]. *)
Definition completion_data (agent_model : string) (prompt : list value)
    (agent_default_settings passed_settings : dict) : dict :=
  let formatted_tools := VNone in
  passed_settings ∪
    (agent_default_settings ∪
       {[ Some "model" := VStr agent_model;
          Some "tools" := or_ formatted_tools VNone;
          Some "messages" := VList prompt ]}).

Definition extra_body (context : StepContext) : dict :=
  {[ Some "cache" :=
       VDict {[ Some "no-cache" :=
                  VBool (debug || disable_cache (current_step context)) ]} ]}.

(** *** Lines 341-382: unwrapping, and re-keying the tool calls *)

Definition unwrap_response
    (response : Litellm.ModelResponse Litellm.ChatCompletionMessageToolCall)
  : result StepOutcome :=
  if negb (Nat.eqb (length (Litellm.choices response)) 1) then
    Raise (ApplicationError "Only one choice is supported")
  else
    match Litellm.choices response !! 0%nat with
    | None => Raise (Raised "IndexError")
    | Some choice =>
        if String.eqb (Litellm.finish_reason choice) "tool_calls" then
          Raise (ApplicationError "Tool calls cannot be unwrapped")
        else
          Ok {| output := OutputContent (Litellm.content (Litellm.message choice));
                next := None |}
    end.

(** The body of [for call in calls]: the call dictionary after it. *)
Definition rekey_call (tools_mapping : gmap key Tool) (call : dict) : result dict :=
  fn ← dict_getitem call "function";
  call_name ← getitem fn "name";
  call_args ← getitem fn "arguments";
  h ← hash call_name;
  let original_tool :=
    match h with
    | HKey k => tools_mapping !! k
    | HOther => None
    end in
  match original_tool with
  | None => Raise (ApplicationError ("Tool " ++ str call_name ++ " not found"))
  | Some original_tool =>
      let type := type_property original_tool in
      if bool_decide (type = Some "function") then Ok call
      else
        Ok (<[type := VDict {[ Some "name" := call_name;
                               Some "arguments" := call_args ]}]>
              (<[Some "type" := opt_str type]>
                 (delete (Some "function") call)))
  end.

(** The body of [for choice in response_as_dict["choices"]]. *)
Definition rekey_choice (tools_mapping : gmap key Tool) (choice : Litellm.Choices dict)
  : result (Litellm.Choices dict) :=
  if String.eqb (Litellm.finish_reason choice) "tool_calls" then
    match Litellm.tool_calls (Litellm.message choice) with
    | None => Raise (TypeError "'NoneType' object is not iterable")
    | Some calls =>
        calls ← mapM (rekey_call tools_mapping) calls;
        Ok {| Litellm.message :=
                {| Litellm.role := Litellm.role (Litellm.message choice);
                   Litellm.content := Litellm.content (Litellm.message choice);
                   Litellm.tool_calls := Some calls |};
              Litellm.finish_reason := Litellm.finish_reason choice |}
    end
  else Ok choice.

Definition rekey_response (tools_mapping : gmap key Tool)
    (response : Litellm.ModelResponse Litellm.ChatCompletionMessageToolCall)
  : result StepOutcome :=
  let response_as_dict := Litellm.model_dump response in
  choices ← mapM (rekey_choice tools_mapping) (Litellm.choices response_as_dict);
  Ok {| output :=
          OutputResponse
            {| Litellm.id := Litellm.id response_as_dict;
               Litellm.choices := choices;
               Litellm.created := Litellm.created response_as_dict;
               Litellm.model := Litellm.model response_as_dict;
               Litellm.object := Litellm.object response_as_dict |};
        next := None |}.

(** *** The whole activity *)

(** Lines 232-339: the response of the backend the step is routed to. *)
Definition get_response (context : StepContext) (prompt : list value)
    (passed_settings : dict) (formatted_tools : list dict)
  : result (Litellm.ModelResponse Litellm.ChatCompletionMessageToolCall) :=
  let agent_model := agent_model context in
  native ←
    (if startswith (lower agent_model) "claude-3.5" then any_native_tool formatted_tools
     else Ok false);
  if native : bool then
    let betas := [COMPUTER_USE_BETA_FLAG] in
    prompt ← anthropic_prompt prompt;
    filtered_tools ← filtered_tools formatted_tools;
    claude_response ←
      messages_create "claude-3-5-sonnet-20241022" prompt filtered_tools 1024 betas;
    claude_model_response claude_response
  else
    acompletion
      (completion_data agent_model prompt (agent_default_settings context)
         passed_settings)
      (extra_body context).

Definition prompt_step (context : StepContext) : result StepOutcome :=
  prompt ← render_prompt context;
  passed_settings ← passed_settings context;
  formatted_tools ← formatted_tools context;
  tools_mapping ← tools_mapping formatted_tools (tools context);
  response ← get_response context prompt passed_settings formatted_tools;
  if unwrap (current_step context) then unwrap_response response
  else rekey_response tools_mapping response.

(** *** Properties of [prompt_step] *)

Lemma bind_Ok {A B : Type} (f : A -> result B) (a : A) : (Ok a ≫= f) = f a.
Proof. reflexivity. Qed.

Lemma bind_Raise {A B : Type} (f : A -> result B) (e : exn) :
  (Raise e ≫= f) = Raise e.
Proof. reflexivity. Qed.

(** The activity, once its five stages have produced their results. *)
Lemma prompt_step_stages context prompt settings ftools mapping response :
  render_prompt context = Ok prompt ->
  passed_settings context = Ok settings ->
  formatted_tools context = Ok ftools ->
  tools_mapping ftools (tools context) = Ok mapping ->
  get_response context prompt settings ftools = Ok response ->
  prompt_step context =
    if unwrap (current_step context) then unwrap_response response
    else rekey_response mapping response.
Proof.
  intros Hp Hs Hf Hm Hr. unfold prompt_step.
  rewrite Hp, bind_Ok, Hs, bind_Ok, Hf, bind_Ok, Hm, bind_Ok, Hr, bind_Ok.
  reflexivity.
Qed.

Lemma unwrap_response_cases response :
  unwrap_response response =
    match Litellm.choices response with
    | [choice] =>
        if String.eqb (Litellm.finish_reason choice) "tool_calls" then
          Raise (ApplicationError "Tool calls cannot be unwrapped")
        else
          Ok {| output := OutputContent (Litellm.content (Litellm.message choice));
                next := None |}
    | _ => Raise (ApplicationError "Only one choice is supported")
    end.
Proof.
  unfold unwrap_response.
  destruct (Litellm.choices response) as [|choice [|choice' rest]]; reflexivity.
Qed.

(** C1.  A prompt step with [unwrap] set, whose backend answered with
    [response]: when the response has exactly one choice and that choice's
    finish reason is not ["tool_calls"], the step returns the content of
    the choice's message as its output (not the response); a response
    with no or several choices, or whose single choice finished with
    ["tool_calls"], makes the step raise an [ApplicationError]. *)
Theorem prompt_step_unwrap context prompt settings ftools mapping response :
  unwrap (current_step context) = true ->
  render_prompt context = Ok prompt ->
  passed_settings context = Ok settings ->
  formatted_tools context = Ok ftools ->
  tools_mapping ftools (tools context) = Ok mapping ->
  get_response context prompt settings ftools = Ok response ->
  (forall choice,
      Litellm.choices response = [choice] ->
      Litellm.finish_reason choice <> "tool_calls" ->
      prompt_step context =
        Ok {| output := OutputContent (Litellm.content (Litellm.message choice));
              next := None |})
  /\ (forall choice,
        Litellm.choices response = [choice] ->
        Litellm.finish_reason choice = "tool_calls" ->
        prompt_step context =
          Raise (ApplicationError "Tool calls cannot be unwrapped"))
  /\ (length (Litellm.choices response) <> 1%nat ->
      prompt_step context = Raise (ApplicationError "Only one choice is supported")).
Proof.
  intros Hu Hp Hs Hf Hm Hr.
  rewrite (prompt_step_stages _ _ _ _ _ _ Hp Hs Hf Hm Hr), Hu, unwrap_response_cases.
  split; [|split].
  - intros choice -> Hfr.
    destruct (String.eqb_spec (Litellm.finish_reason choice) "tool_calls");
      [contradiction | reflexivity].
  - intros choice -> ->. reflexivity.
  - intros Hlen.
    destruct (Litellm.choices response) as [|choice [|choice' rest]];
      [reflexivity | contradiction Hlen; reflexivity | reflexivity].
Qed.

Lemma rekey_response_next mapping response outcome :
  rekey_response mapping response = Ok outcome -> next outcome = None.
Proof.
  unfold rekey_response.
  destruct (mapM _ _) as [choices|e]; simpl; [|discriminate].
  intros [= <-]. reflexivity.
Qed.

Lemma unwrap_response_next response outcome :
  unwrap_response response = Ok outcome -> next outcome = None.
Proof.
  rewrite unwrap_response_cases.
  destruct (Litellm.choices response) as [|choice [|choice' rest]]; try discriminate.
  destruct (String.eqb _ _); [discriminate|].
  intros [= <-]. reflexivity.
Qed.

(** C10.  Whenever the prompt step returns an outcome, on the unwrap
    path or on the full-response path, the outcome's [next] is [None]. *)
Theorem prompt_step_next_None context outcome :
  prompt_step context = Ok outcome -> next outcome = None.
Proof.
  unfold prompt_step.
  destruct (render_prompt context) as [prompt|e]; [rewrite bind_Ok|discriminate].
  destruct (passed_settings context) as [settings|e]; [rewrite bind_Ok|discriminate].
  destruct (formatted_tools context) as [ftools|e]; [rewrite bind_Ok|discriminate].
  destruct (tools_mapping ftools (tools context)) as [mapping|e];
    [rewrite bind_Ok|discriminate].
  destruct (get_response context prompt settings ftools) as [response|e];
    [rewrite bind_Ok|discriminate].
  destruct (unwrap (current_step context)).
  - apply unwrap_response_next.
  - apply rekey_response_next.
Qed.

(** *** Loops that may raise *)

Lemma mapM_nil {A B : Type} (f : A -> result B) : mapM f [] = Ok [].
Proof. reflexivity. Qed.

Lemma mapM_cons {A B : Type} (f : A -> result B) (x : A) (l : list A) :
  mapM f (x :: l) = (y ← f x; k ← mapM f l; Ok (y :: k)).
Proof. reflexivity. Qed.

(** A loop returns exactly when every iteration does, with the results in
    order. *)
Lemma mapM_Ok_Forall2 {A B : Type} (f : A -> result B) (l : list A) (k : list B) :
  mapM f l = Ok k <-> Forall2 (fun x y => f x = Ok y) l k.
Proof.
  revert k. induction l as [|x l IH]; intros k.
  - rewrite mapM_nil. split.
    + intros [= <-]. constructor.
    + intros H. inversion H. reflexivity.
  - rewrite mapM_cons. split.
    + destruct (f x) as [y|e] eqn:Hx; [rewrite bind_Ok|discriminate].
      destruct (mapM f l) as [k'|e] eqn:Hl; [rewrite bind_Ok|discriminate].
      intros [= <-]. constructor; [assumption|]. apply IH. reflexivity.
    + intros H. inversion H as [|? y ? k' Hx Hl]; subst.
      rewrite Hx, bind_Ok. apply IH in Hl. rewrite Hl, bind_Ok. reflexivity.
Qed.

(** A loop that raises raises what one of its iterations raised. *)
Lemma mapM_Raise_elem {A B : Type} (f : A -> result B) (l : list A) (e : exn) :
  mapM f l = Raise e -> exists x, x ∈ l /\ f x = Raise e.
Proof.
  induction l as [|x l IH]; [discriminate|].
  rewrite mapM_cons.
  destruct (f x) as [y|e'] eqn:Hx.
  - rewrite bind_Ok.
    destruct (mapM f l) as [k'|e'] eqn:Hl; [discriminate|].
    intros [= ->]. destruct (IH eq_refl) as (x' & Hin & Hx').
    exists x'. split; [right; assumption | assumption].
  - intros [= ->]. exists x. split; [left | assumption].
Qed.

(** A loop one of whose iterations raises does raise. *)
Lemma mapM_elem_Raise {A B : Type} (f : A -> result B) (l : list A) (x : A) (e : exn) :
  x ∈ l -> f x = Raise e -> exists e', mapM f l = Raise e'.
Proof.
  intros Hin Hx. induction Hin as [x l | x x' l Hin IH].
  - exists e. rewrite mapM_cons, Hx. reflexivity.
  - rewrite mapM_cons. destruct (f x') as [y|e'].
    + rewrite bind_Ok. destruct (IH Hx) as [e' ->]. exists e'. reflexivity.
    + exists e'. reflexivity.
Qed.

(** *** Re-keying of tool calls *)

Lemma type_property_cases (t : Tool) :
  type_property t = Some "function" \/ type_property t = Some "integration"
  \/ type_property t = Some "system" \/ type_property t = Some "api_call"
  \/ type_property t = None.
Proof.
  unfold type_property.
  destruct (function t), (integration t), (system t), (api_call t); cbn; tauto.
Qed.

Lemma type_property_integration (tool : Tool) :
  type_property tool = Some "integration" -> is_Some (integration tool).
Proof.
  unfold type_property.
  destruct (function tool), (integration tool), (system tool), (api_call tool);
    cbn; intros H; try discriminate H; eexists; reflexivity.
Qed.

Lemma dump_call_function c :
  Litellm.dump_call c !! Some "function" =
    Some (VDict {[ Some "arguments" := VStr (Litellm.arguments (Litellm.function c));
                   Some "name" := VStr (Litellm.name (Litellm.function c)) ]}).
Proof. reflexivity. Qed.

Lemma fn_lookup_name (n a : value) :
  ({[ Some "arguments" := a; Some "name" := n ]} : dict) !! Some "name" = Some n.
Proof. reflexivity. Qed.

Lemma fn_lookup_arguments (n a : value) :
  ({[ Some "arguments" := a; Some "name" := n ]} : dict) !! Some "arguments" = Some a.
Proof. reflexivity. Qed.

(** The loop body on the dump of a tool call, by what its name resolves
    to. *)
Lemma rekey_call_dump mapping c :
  rekey_call mapping (Litellm.dump_call c) =
    match mapping !! Some (Litellm.name (Litellm.function c)) with
    | None =>
        Raise (ApplicationError
                 ("Tool " ++ Litellm.name (Litellm.function c) ++ " not found"))
    | Some original_tool =>
        let type := type_property original_tool in
        if bool_decide (type = Some "function") then Ok (Litellm.dump_call c)
        else
          Ok (<[type := VDict {[ Some "name" := VStr (Litellm.name (Litellm.function c));
                                 Some "arguments" :=
                                   VStr (Litellm.arguments (Litellm.function c)) ]}]>
                (<[Some "type" := opt_str type]>
                   (delete (Some "function") (Litellm.dump_call c))))
    end.
Proof.
  unfold rekey_call, dict_getitem.
  rewrite dump_call_function, bind_Ok. cbn [getitem].
  rewrite fn_lookup_name, bind_Ok, fn_lookup_arguments, bind_Ok.
  cbn [hash]. rewrite bind_Ok. reflexivity.
Qed.

(** What a choice of the dumped response becomes: a choice that did not
    finish with ["tool_calls"] is left as it is; in one that did, every
    call is the result of the loop body on the call it was. *)
Definition choice_rekeyed (mapping : gmap key Tool)
    (choice : Litellm.Choices Litellm.ChatCompletionMessageToolCall)
    (choice' : Litellm.Choices dict) : Prop :=
  if String.eqb (Litellm.finish_reason choice) "tool_calls" then
    Litellm.finish_reason choice' = "tool_calls"
    /\ Litellm.role (Litellm.message choice') = Litellm.role (Litellm.message choice)
    /\ Litellm.content (Litellm.message choice') = Litellm.content (Litellm.message choice)
    /\ exists calls calls',
        Litellm.tool_calls (Litellm.message choice) = Some calls
        /\ Litellm.tool_calls (Litellm.message choice') = Some calls'
        /\ Forall2 (fun call call' => rekey_call mapping (Litellm.dump_call call) = Ok call')
             calls calls'
  else choice' = Litellm.dump_choice choice.

Lemma rekey_choice_Ok mapping choice choice' :
  rekey_choice mapping (Litellm.dump_choice choice) = Ok choice' ->
  choice_rekeyed mapping choice choice'.
Proof.
  unfold rekey_choice, choice_rekeyed. cbn.
  destruct (String.eqb_spec (Litellm.finish_reason choice) "tool_calls") as [Hfr|Hfr].
  - destruct (Litellm.tool_calls (Litellm.message choice)) as [calls|]; cbn;
      [|discriminate].
    destruct (mapM _ _) as [calls'|e] eqn:Hcalls; [rewrite bind_Ok|discriminate].
    intros [= <-]. cbn. repeat split; try assumption.
    exists calls, calls'. repeat split.
    apply mapM_Ok_Forall2 in Hcalls.
    apply Forall2_fmap_l in Hcalls. exact Hcalls.
  - intros [= <-]. reflexivity.
Qed.

Lemma rekey_choice_Raise mapping choice e :
  rekey_choice mapping (Litellm.dump_choice choice) = Raise e ->
  Litellm.finish_reason choice = "tool_calls"
  /\ (Litellm.tool_calls (Litellm.message choice) = None
      \/ exists calls call,
          Litellm.tool_calls (Litellm.message choice) = Some calls
          /\ call ∈ calls
          /\ mapping !! Some (Litellm.name (Litellm.function call)) = None
          /\ e = ApplicationError
                   ("Tool " ++ Litellm.name (Litellm.function call) ++ " not found")).
Proof.
  unfold rekey_choice. cbn.
  destruct (String.eqb_spec (Litellm.finish_reason choice) "tool_calls") as [Hfr|Hfr];
    [|discriminate].
  destruct (Litellm.tool_calls (Litellm.message choice)) as [calls|]; cbn;
    [|intros _; split; [assumption | left; reflexivity]].
  destruct (mapM _ _) as [calls'|e'] eqn:Hcalls; [discriminate|].
  intros [= ->]. split; [assumption|]. right.
  apply mapM_Raise_elem in Hcalls as (d & Hin & Hd).
  apply list_elem_of_fmap in Hin as (call & -> & Hin).
  exists calls, call. split; [reflexivity|]. split; [assumption|].
  rewrite rekey_call_dump in Hd.
  destruct (mapping !! _) as [t|].
  - cbn in Hd. destruct (bool_decide _); discriminate.
  - split; [reflexivity|]. congruence.
Qed.

Lemma rekey_response_Ok mapping response outcome :
  rekey_response mapping response = Ok outcome ->
  exists r,
    output outcome = OutputResponse r
    /\ Forall2 (choice_rekeyed mapping) (Litellm.choices response) (Litellm.choices r).
Proof.
  unfold rekey_response.
  destruct (mapM _ _) as [choices|e] eqn:Hchoices; [rewrite bind_Ok|discriminate].
  intros [= <-]. eexists. split; [reflexivity|]. cbn.
  apply mapM_Ok_Forall2 in Hchoices. cbn in Hchoices.
  apply Forall2_fmap_l in Hchoices.
  eapply Forall2_impl; [exact Hchoices|].
  intros choice choice'. apply rekey_choice_Ok.
Qed.

Lemma rekey_response_unknown_tool mapping response :
  (forall choice,
      choice ∈ Litellm.choices response ->
      Litellm.finish_reason choice = "tool_calls" ->
      is_Some (Litellm.tool_calls (Litellm.message choice))) ->
  (exists choice calls call,
      choice ∈ Litellm.choices response
      /\ Litellm.finish_reason choice = "tool_calls"
      /\ Litellm.tool_calls (Litellm.message choice) = Some calls
      /\ call ∈ calls
      /\ mapping !! Some (Litellm.name (Litellm.function call)) = None) ->
  exists n,
    mapping !! Some n = None
    /\ rekey_response mapping response
       = Raise (ApplicationError ("Tool " ++ n ++ " not found")).
Proof.
  intros Hcalls (choice & calls & call & Hin & Hfr & Htc & Hcall & Hnone).
  assert (exists e, rekey_choice mapping (Litellm.dump_choice choice) = Raise e)
    as [e He].
  { unfold rekey_choice. cbn. rewrite Hfr, Htc. cbn.
    destruct (mapM_elem_Raise (rekey_call mapping) (Litellm.dump_call <$> calls)
                (Litellm.dump_call call)
                (ApplicationError
                   ("Tool " ++ Litellm.name (Litellm.function call) ++ " not found")))
      as [e' He'].
    - apply list_elem_of_fmap. exists call. split; [reflexivity | assumption].
    - rewrite rekey_call_dump, Hnone. reflexivity.
    - exists e'. rewrite He'. reflexivity. }
  destruct (mapM_elem_Raise (rekey_choice mapping)
              (Litellm.dump_choice <$> Litellm.choices response)
              (Litellm.dump_choice choice) e) as [e' He'].
  { apply list_elem_of_fmap. exists choice. split; [reflexivity | assumption]. }
  { assumption. }
  pose proof He' as Hfirst.
  apply mapM_Raise_elem in Hfirst as (d & Hd & Hraise).
  apply list_elem_of_fmap in Hd as (choice0 & -> & Hin0).
  apply rekey_choice_Raise in Hraise as (Hfr0 & [Hnone0 | Hfound]).
  - destruct (Hcalls choice0 Hin0 Hfr0) as [calls0 Hsome]. congruence.
  - destruct Hfound as (calls0 & call0 & _ & _ & Hnone0 & ->).
    exists (Litellm.name (Litellm.function call0)). split; [assumption|].
    unfold rekey_response. cbn. rewrite He'. reflexivity.
Qed.

(** *** The native-tools backend's response *)

Lemma elem_of_blocks_of_type t content block :
  block ∈ blocks_of_type t content <-> block ∈ content /\ Anthropic.type block = t.
Proof.
  unfold blocks_of_type. rewrite !list_elem_of_In, filter_In.
  split; intros [Hin Ht]; (split; [assumption|]).
  - apply String.eqb_eq. assumption.
  - apply String.eqb_eq. assumption.
Qed.







(** *** The evaluated prompt *)

(** C6 (amended).  A prompt that is a string beginning with ["$_ "]: the
    rest of the string, stripped, is evaluated against the context data.
    When the evaluation yields [v], the step fails with the
    invalid-prompt-expression error if and only if [v] is neither a
    string nor a list, whatever the list holds; a string is wrapped
    as a single message of role ["user"], a list is taken as it is, and in
    neither case are templates rendered. *)
Theorem render_prompt_evaluated context s v :
  prompt (current_step context) = VStr s ->
  startswith s EVAL_PROMPT_PREFIX = true ->
  base_evaluate (strip (drop_str 3 s)) (prepare_for_step context) = Ok v ->
  (render_prompt context
     = Raise (ApplicationError "Invalid prompt expression, expected a string or list")
   <-> (forall t, v <> VStr t) /\ (forall l, v <> VList l))
  /\ (forall t,
        v = VStr t ->
        render_prompt context
          = Ok [VDict {[ Some "role" := VStr "user"; Some "content" := VStr t ]}])
  /\ (forall l, v = VList l -> render_prompt context = Ok l)
  /\ ((forall t, v <> VStr t) /\ (forall l, v <> VList l) ->
      prompt_step context
        = Raise (ApplicationError "Invalid prompt expression, expected a string or list")).
Proof.
  intros Hprompt Hprefix Heval.
  assert (render_prompt context =
            if is_str_or_list v then
              Ok match v with
                 | VList l => l
                 | _ => [VDict {[ Some "role" := VStr "user"; Some "content" := v ]}]
                 end
            else
              Raise (ApplicationError
                       "Invalid prompt expression, expected a string or list"))
    as Hrender.
  { unfold render_prompt. rewrite Hprompt. cbn [should_evaluate_prompt].
    rewrite Hprefix. change (String.length EVAL_PROMPT_PREFIX) with 3%nat.
    rewrite Heval, bind_Ok.
    destruct (is_str_or_list v); reflexivity. }
  assert (is_str_or_list v = false
          <-> (forall t, v <> VStr t) /\ (forall l, v <> VList l)) as Hneither.
  { split.
    - intros Hv. split; intros x ->; discriminate.
    - intros [Hs Hl]. destruct v; try reflexivity.
      + contradiction (Hs s0). reflexivity.
      + contradiction (Hl l). reflexivity. }
  repeat apply conj.
  - rewrite Hrender. intros Hr. apply Hneither.
    destruct (is_str_or_list v); [discriminate | reflexivity].
  - intros Hv. apply Hneither in Hv. rewrite Hrender, Hv. reflexivity.
  - intros t ->. rewrite Hrender. reflexivity.
  - intros l ->. rewrite Hrender. reflexivity.
  - intros Hv. apply Hneither in Hv. unfold prompt_step.
    rewrite Hrender, Hv. reflexivity.
Qed.

(** *** The formatter on integration tools *)

(** An integration tool of a provider that [providers_map] does not
    know, and a browserbase tool of a method it does not know. *)
Definition unknown_provider_tool : Tool :=
  {| name := "lookup"; description := Some "Look something up";
     function := None;
     integration := Some {| provider := "acme"; method := None |};
     system := None; api_call := None; computer_20241022 := None;
     text_editor_20241022 := None; bash_20241022 := None |}.

Definition unknown_method_tool : Tool :=
  {| name := "browse"; description := None;
     function := None;
     integration := Some {| provider := "browserbase"; method := Some "teleport" |};
     system := None; api_call := None; computer_20241022 := None;
     text_editor_20241022 := None; bash_20241022 := None |}.

Lemma _get_integration_arguments_unknown tool i :
  integration tool = Some i ->
  lookup_integration i = None ->
  _get_integration_arguments tool
    = Raise (AttributeError "'NoneType' object has no attribute 'arguments'").
Proof.
  intros Hi Hnone. unfold _get_integration_arguments. rewrite Hi, Hnone. reflexivity.
Qed.

Lemma _get_integration_arguments_known tool i d :
  integration tool = Some i ->
  lookup_integration i = Some d ->
  _get_integration_arguments tool = Raise (AttributeError "arguments").
Proof.
  intros Hi Hd. unfold _get_integration_arguments. rewrite Hi, Hd. reflexivity.
Qed.

(** X5.  No tool is given a schema by [_get_integration_arguments]:
    the call raises [AttributeError] on every tool.  Without an
    integration it is the read of [provider] on [None]; with a provider
    (or a browserbase method) that [providers_map] does not know, the
    read of [arguments] on [None]; and with a known one, the read of
    [arguments] on the definition class, which has no such attribute.
    The statements after the read (the empty schema for no arguments,
    the loop over the fields of an argument model, the dict taken as the
    properties) are never reached. *)
Theorem _get_integration_arguments_raises (tool : Tool) :
  _get_integration_arguments tool =
    Raise (AttributeError
             match integration tool with
             | None => "'NoneType' object has no attribute 'provider'"
             | Some i =>
                 match lookup_integration i with
                 | None => "'NoneType' object has no attribute 'arguments'"
                 | Some _ => "arguments"
                 end
             end).
Proof.
  destruct (integration tool) as [i|] eqn:Hi.
  - destruct (lookup_integration i) as [d|] eqn:Hd.
    + exact (_get_integration_arguments_known tool i d Hi Hd).
    + exact (_get_integration_arguments_unknown tool i Hi Hd).
  - unfold _get_integration_arguments. rewrite Hi. reflexivity.
Qed.

(** C5, at the failing inputs.  Formatting an integration tool whose
    provider is not in [providers_map], or a browserbase tool whose method
    is not, returns no descriptor: it raises [AttributeError], the lookup
    having yielded [None]. *)
Theorem format_tool_unknown_integration :
  format_tool unknown_provider_tool
    = Raise (AttributeError "'NoneType' object has no attribute 'arguments'")
  /\ format_tool unknown_method_tool
     = Raise (AttributeError "'NoneType' object has no attribute 'arguments'").
Proof. split; reflexivity. Qed.

(** *** The generic backend at a step with a tool *)

Definition get_weather_tool : Tool :=
  {| name := "get_weather"; description := Some "Weather in a city";
     function := Some {| parameters := VDict {[ Some "type" := VStr "object" ]} |};
     integration := None; system := None; api_call := None;
     computer_20241022 := None; text_editor_20241022 := None;
     bash_20241022 := None |}.

(** A step of an agent on a model of the generic backend, with one
    function tool available. *)
Definition generic_context : StepContext :=
  {| current_step :=
       {| prompt := VStr "What is the weather in Paris?"; unwrap := false;
          disable_cache := false; model_dump_unset := ∅ |};
     agent := {| default_settings := None; model := Some "gpt-4o" |};
     tools := [get_weather_tool];
     prepare_for_step := ∅ |}.

Definition get_weather_descriptor : dict :=
  {[ Some "type" := VStr "function";
     Some "function" :=
       VDict {[ Some "name" := VStr "get_weather";
                Some "description" := VStr "Weather in a city";
                Some "parameters" := VDict {[ Some "type" := VStr "object" ]} ]} ]}.

Lemma completion_data_tools agent_model prompt defaults settings :
  defaults !! Some "tools" = None ->
  settings !! Some "tools" = None ->
  completion_data agent_model prompt defaults settings !! Some "tools" = Some VNone.
Proof.
  intros Hd Hs. unfold completion_data.
  rewrite lookup_union_r by assumption.
  rewrite lookup_union_r by assumption.
  reflexivity.
Qed.

(** C4, at the failing input.  The step [generic_context] has one tool,
    whose formatted descriptor is [get_weather_descriptor]; it is routed
    to the generic backend, and the completion call receives [None] as
    its [tools], not the descriptor. *)
Theorem generic_backend_receives_no_tools :
  passed_settings generic_context = Ok ∅
  /\ formatted_tools generic_context = Ok [get_weather_descriptor]
  /\ forall prompt,
      get_response generic_context prompt ∅ [get_weather_descriptor]
        = acompletion (completion_data "gpt-4o" prompt ∅ ∅) (extra_body generic_context)
      /\ completion_data "gpt-4o" prompt ∅ ∅ !! Some "tools" = Some VNone.
Proof.
  split; [reflexivity|]. split; [reflexivity|].
  intros prompt. split; reflexivity.
Qed.

(** *** The reverse map *)

(** Under its emitted name a formatted tool is found again: the name of
    the tool it was made from. *)
Lemma format_tool_emitted_name tool fmt_tool :
  format_tool tool = Ok fmt_tool -> emitted_name fmt_tool = Ok (VStr (name tool)).
Proof.
  unfold format_tool.
  destruct (type_property_cases tool) as [H|[H|[H|[H|H]]]]; rewrite H; cbn.
  - intros [= <-]. reflexivity.
  - destruct (is_set (integration tool)); cbn.
    + destruct (_get_integration_arguments tool) as [parameters|e];
        [rewrite bind_Ok | discriminate].
      intros [= <-]. reflexivity.
    + intros [= <-]. reflexivity.
  - destruct (get_input_jsonschema (system tool)) as [json_schema|e];
      [rewrite bind_Ok | discriminate].
    intros [= <-]. reflexivity.
  - destruct (is_set (api_call tool)); cbn; intros [= <-]; reflexivity.
  - intros [= <-]. reflexivity.
Qed.

(** With [type_property] as the type of a tool, no tool formats to a
    model-native descriptor: every descriptor is function-shaped, also
    that of a tool whose only variant is model-native. *)
Lemma format_tool_function_shaped tool fmt_tool :
  format_tool tool = Ok fmt_tool -> fmt_tool !! Some "type" = Some (VStr "function").
Proof.
  unfold format_tool.
  destruct (type_property_cases tool) as [H|[H|[H|[H|H]]]]; rewrite H; cbn.
  - intros [= <-]. reflexivity.
  - destruct (is_set (integration tool)); cbn.
    + destruct (_get_integration_arguments tool) as [parameters|e];
        [rewrite bind_Ok | discriminate].
      intros [= <-]. reflexivity.
    + intros [= <-]. reflexivity.
  - destruct (get_input_jsonschema (system tool)) as [json_schema|e];
      [rewrite bind_Ok | discriminate].
    intros [= <-]. reflexivity.
  - destruct (is_set (api_call tool)); cbn; intros [= <-]; reflexivity.
  - intros [= <-]. reflexivity.
Qed.

(** So the test for native tools finds none among formatted tools. *)
Lemma any_native_tool_formatted context ftools :
  formatted_tools context = Ok ftools -> any_native_tool ftools = Ok false.
Proof.
  unfold formatted_tools. intros Hf. apply mapM_Ok_Forall2 in Hf.
  induction Hf as [|tool fmt_tool tools' ftools' Hfmt _ IH]; [reflexivity|].
  cbn. unfold dict_getitem.
  rewrite (format_tool_function_shaped _ _ Hfmt), bind_Ok. exact IH.
Qed.

(** The dict comprehension inserts the tools under their names, from
    left to right. *)
Lemma tools_mapping_from_foldl tools ftools acc :
  Forall2 (fun tool fmt_tool => format_tool tool = Ok fmt_tool) tools ftools ->
  tools_mapping_from (zip ftools tools) acc
    = Ok (foldl (fun m tool => <[Some (name tool) := tool]> m) acc tools).
Proof.
  intros H. revert acc. induction H as [|tool fmt_tool tools ftools Hf _ IH]; intros acc.
  - reflexivity.
  - cbn. rewrite (format_tool_emitted_name _ _ Hf), bind_Ok. cbn. apply IH.
Qed.

Lemma foldl_insert_is_Some (tools : list Tool) (acc : gmap key Tool) (k : key) :
  is_Some (acc !! k) ->
  is_Some (foldl (fun m tool => <[Some (name tool) := tool]> m) acc tools !! k).
Proof.
  revert acc. induction tools as [|tool tools IH]; intros acc Hk; [assumption|].
  cbn. apply IH. apply lookup_insert_is_Some'. right. assumption.
Qed.

Lemma foldl_insert_elem (tools : list Tool) (acc : gmap key Tool) (tool : Tool) :
  tool ∈ tools ->
  is_Some (foldl (fun m tool => <[Some (name tool) := tool]> m) acc tools
           !! Some (name tool)).
Proof.
  intros Hin. revert acc. induction Hin as [tool tools | tool tool' tools Hin IH];
    intros acc; cbn.
  - apply foldl_insert_is_Some. rewrite lookup_insert_eq. eexists. reflexivity.
  - apply IH.
Qed.

Lemma foldl_insert_lookup (tools : list Tool) (acc : gmap key Tool) (k : key) (tool : Tool) :
  foldl (fun m tool => <[Some (name tool) := tool]> m) acc tools !! k = Some tool ->
  (tool ∈ tools /\ k = Some (name tool)) \/ acc !! k = Some tool.
Proof.
  revert acc. induction tools as [|tool' tools IH]; intros acc; cbn.
  - intros H. right. assumption.
  - intros H. apply IH in H as [[Hin Hk] | H].
    + left. split; [right; assumption | assumption].
    + apply lookup_insert_Some in H as [[<- <-] | [_ H]].
      * left. split; [left | reflexivity].
      * right. assumption.
Qed.

Lemma NoDup_fmap_eq {A B : Type} (f : A -> B) (l : list A) (x y : A) :
  NoDup (f <$> l) -> x ∈ l -> y ∈ l -> f x = f y -> x = y.
Proof.
  induction l as [|z l IH]; cbn; intros Hnd Hx Hy Hf.
  - apply elem_of_nil in Hx. contradiction.
  - apply NoDup_cons in Hnd as [Hz Hnd].
    apply elem_of_cons in Hx as [-> | Hx]; apply elem_of_cons in Hy as [-> | Hy].
    + reflexivity.
    + contradiction Hz. rewrite Hf. apply list_elem_of_fmap. eauto.
    + contradiction Hz. rewrite <- Hf. apply list_elem_of_fmap. eauto.
    + apply IH; assumption.
Qed.

(** X2.  The round trip between the formatter and the reverse map: when the
    tools of the step format, the reverse map is built without error, it
    resolves the name of every tool of the step to a tool of the step of
    that name, and to the tool itself when the names are unique; and it
    resolves no name that no tool of the step has. *)
Theorem tools_mapping_resolves context ftools :
  formatted_tools context = Ok ftools ->
  exists mapping,
    tools_mapping ftools (tools context) = Ok mapping
    /\ (forall tool,
          tool ∈ tools context ->
          exists tool',
            mapping !! Some (name tool) = Some tool'
            /\ tool' ∈ tools context /\ name tool' = name tool)
    /\ (NoDup (name <$> tools context) ->
        forall tool, tool ∈ tools context -> mapping !! Some (name tool) = Some tool)
    /\ (forall k tool,
          mapping !! k = Some tool -> tool ∈ tools context /\ k = Some (name tool)).
Proof.
  unfold formatted_tools, tools_mapping. intros Hf.
  apply mapM_Ok_Forall2 in Hf.
  rewrite (tools_mapping_from_foldl _ _ _ Hf).
  eexists. split; [reflexivity|].
  assert (forall tool,
             tool ∈ tools context ->
             exists tool',
               foldl (fun m tool => <[Some (name tool) := tool]> m)
                 (∅ : gmap key Tool) (tools context)
               !! Some (name tool) = Some tool'
               /\ tool' ∈ tools context /\ name tool' = name tool) as Hresolve.
  { intros tool Hin.
    destruct (foldl_insert_elem (tools context) ∅ tool Hin) as [tool' Htool'].
    exists tool'. split; [assumption|].
    apply foldl_insert_lookup in Htool' as [[Hin' Hk] | Hempty].
    - split; [assumption | congruence].
    - rewrite lookup_empty in Hempty. discriminate. }
  split; [exact Hresolve | split].
  - intros Hnd tool Hin. destruct (Hresolve tool Hin) as (tool' & Hl & Hin' & Hn).
    rewrite Hl. f_equal. apply (NoDup_fmap_eq name (tools context)); assumption.
  - intros k tool Hl. apply foldl_insert_lookup in Hl as [H | Hempty].
    + assumption.
    + rewrite lookup_empty in Hempty. discriminate.
Qed.

(** *** The re-keyed calls of a step *)

Lemma formatted_tools_elem context ftools tool :
  formatted_tools context = Ok ftools ->
  tool ∈ tools context ->
  exists fmt_tool, format_tool tool = Ok fmt_tool.
Proof.
  unfold formatted_tools. intros Hf Hin. apply mapM_Ok_Forall2 in Hf.
  apply list_elem_of_lookup in Hin as [i Hi].
  destruct (Forall2_lookup_l _ _ _ _ _ Hf Hi) as (fmt_tool & _ & Hfmt).
  exists fmt_tool. exact Hfmt.
Qed.

Lemma tools_mapping_elem (context : StepContext) (ftools : list (gmap key value))
    (mapping : gmap key Tool) (k : key) (tool : Tool) :
  formatted_tools context = Ok ftools ->
  tools_mapping ftools (tools context) = Ok mapping ->
  mapping !! k = Some tool ->
  tool ∈ tools context.
Proof.
  unfold formatted_tools, tools_mapping. intros Hf Hm Hk.
  apply mapM_Ok_Forall2 in Hf.
  rewrite (tools_mapping_from_foldl _ _ _ Hf) in Hm. injection Hm as <-.
  apply foldl_insert_lookup in Hk as [[Hin _] | Hempty]; [exact Hin|].
  rewrite lookup_empty in Hempty. discriminate.
Qed.

(** No integration tool formats. *)
Lemma format_tool_Ok_not_integration tool fmt_tool :
  format_tool tool = Ok fmt_tool -> type_property tool <> Some "integration".
Proof.
  intros Hf Ht. unfold format_tool in Hf. rewrite Ht in Hf. cbn in Hf.
  destruct (integration tool) as [i|] eqn:Hi.
  - destruct (lookup_integration i) as [d|] eqn:Hd.
    + rewrite (_get_integration_arguments_known tool i d Hi Hd) in Hf. discriminate.
    + rewrite (_get_integration_arguments_unknown tool i Hi Hd) in Hf. discriminate.
  - apply type_property_integration in Ht as [i Hi']. congruence.
Qed.

(** X29.  A prompt step that is not unwrapped, whose backend answered
    with [response] and whose reverse map, built from the formatted tools,
    is [mapping].  For a tool call of the response, by the derived type
    of the tool its function name resolves to: when the type is
    ["function"], the loop body leaves the call object as it is; when it
    is anything else, [t], the call object loses its ["function"] entry,
    gets ["type"] set to [t] and gets under the key [t] the name and the
    arguments, its id staying.  Here [t] is ["system"] or ["api_call"],
    or it is [None], for a tool with none of the four variants (a
    model-native tool), whose call is then stored under the key [None];
    it is never ["integration"], a step with an integration tool failing
    before, when its tools are formatted.  When the name resolves to no
    tool, an [ApplicationError] "Tool .. not found" is raised.  When the
    step returns, every choice that finished with ["tool_calls"] has each
    of its calls replaced by what the loop body made of it, and every
    other choice is as dumped; and when some call of such a choice
    resolves to no tool, the step fails with that error. *)
Theorem prompt_step_rekeys_by_type context prompt settings ftools mapping response :
  unwrap (current_step context) = false ->
  render_prompt context = Ok prompt ->
  passed_settings context = Ok settings ->
  formatted_tools context = Ok ftools ->
  tools_mapping ftools (tools context) = Ok mapping ->
  get_response context prompt settings ftools = Ok response ->
  (forall call original_tool,
      mapping !! Some (Litellm.name (Litellm.function call)) = Some original_tool ->
      type_property original_tool = Some "function" ->
      rekey_call mapping (Litellm.dump_call call) = Ok (Litellm.dump_call call))
  /\ (forall call original_tool,
        mapping !! Some (Litellm.name (Litellm.function call)) = Some original_tool ->
        type_property original_tool <> Some "function" ->
        type_property original_tool ∈ [Some "system"; Some "api_call"; None]
        /\ rekey_call mapping (Litellm.dump_call call) =
             Ok {[ Some "type" := opt_str (type_property original_tool);
                   type_property original_tool :=
                     VDict {[ Some "name" := VStr (Litellm.name (Litellm.function call));
                              Some "arguments" :=
                                VStr (Litellm.arguments (Litellm.function call)) ]};
                   Some "id" := VStr (Litellm.call_id call) ]})
  /\ (forall call,
        mapping !! Some (Litellm.name (Litellm.function call)) = None ->
        rekey_call mapping (Litellm.dump_call call) =
          Raise (ApplicationError
                   ("Tool " ++ Litellm.name (Litellm.function call) ++ " not found")))
  /\ (forall outcome,
        prompt_step context = Ok outcome ->
        exists r,
          output outcome = OutputResponse r
          /\ Forall2 (choice_rekeyed mapping)
               (Litellm.choices response) (Litellm.choices r))
  /\ ((forall choice,
          choice ∈ Litellm.choices response ->
          Litellm.finish_reason choice = "tool_calls" ->
          is_Some (Litellm.tool_calls (Litellm.message choice))) ->
      (exists choice calls call,
          choice ∈ Litellm.choices response
          /\ Litellm.finish_reason choice = "tool_calls"
          /\ Litellm.tool_calls (Litellm.message choice) = Some calls
          /\ call ∈ calls
          /\ mapping !! Some (Litellm.name (Litellm.function call)) = None) ->
      exists n,
        mapping !! Some n = None
        /\ prompt_step context = Raise (ApplicationError ("Tool " ++ n ++ " not found"))).
Proof.
  intros Hu Hp Hs Hf Hm Hr.
  rewrite (prompt_step_stages _ _ _ _ _ _ Hp Hs Hf Hm Hr), Hu.
  repeat apply conj.
  - intros call t Ht Hty. rewrite rekey_call_dump, Ht. cbn.
    rewrite bool_decide_eq_true_2 by assumption. reflexivity.
  - intros call t Ht Hty. rewrite rekey_call_dump, Ht. cbn.
    rewrite bool_decide_eq_false_2 by assumption.
    pose proof (tools_mapping_elem _ _ _ _ _ Hf Hm Ht) as Hin.
    destruct (formatted_tools_elem _ _ _ Hf Hin) as [fmt_tool Hfmt].
    pose proof (format_tool_Ok_not_integration _ _ Hfmt) as Hint.
    destruct (type_property_cases t) as [H|[H|[H|[H|H]]]];
      [contradiction (Hty H) | contradiction (Hint H) | rewrite H..];
      (split; [|reflexivity]);
      first [left | right; left | right; right; left].
  - intros call Hnone. rewrite rekey_call_dump, Hnone. reflexivity.
  - apply rekey_response_Ok.
  - apply rekey_response_unknown_tool.
Qed.

(** *** The call object, entry by entry *)

(** On any call object whose ["function"] entry holds a name and
    arguments, and whose name resolves to a tool whose derived type [t]
    is not ["function"]: the object loses ["function"], gets ["type"] set
    to [t] and, under the key [t], the name and the arguments; its other
    entries stay. *)
Lemma rekey_call_entries (mapping : gmap key Tool) (call fn : gmap key value)
    (n : string) (a : value) (original_tool : Tool) :
  call !! Some "function" = Some (VDict fn) ->
  fn !! Some "name" = Some (VStr n) ->
  fn !! Some "arguments" = Some a ->
  mapping !! Some n = Some original_tool ->
  type_property original_tool <> Some "function" ->
  rekey_call mapping call =
    Ok (<[type_property original_tool :=
            VDict {[ Some "name" := VStr n; Some "arguments" := a ]}]>
          (<[Some "type" := opt_str (type_property original_tool)]>
             (delete (Some "function") call))).
Proof.
  intros Hfn Hn Ha Hm Ht. unfold rekey_call, dict_getitem.
  rewrite Hfn, bind_Ok. cbn [getitem]. rewrite Hn, bind_Ok, Ha, bind_Ok.
  cbn [hash]. rewrite bind_Ok, Hm.
  rewrite bool_decide_eq_false_2 by assumption. reflexivity.
Qed.

(** X3.  The object [{function: {name, arguments}}], its name resolving
    to a tool whose derived type [t] is not ["function"], becomes
    [{type: t, t: {name, arguments}}].  The type [t] is ["integration"],
    ["system"] or ["api_call"], or it is [None], for a tool that carries
    none of the four variants (a model-native tool): the object is then
    [{type: None, None: {name, arguments}}], the key being [None]
    itself. *)
Lemma rekey_call_shape (mapping : gmap key Tool) (n : string) (a : value)
    (original_tool : Tool) :
  mapping !! Some n = Some original_tool ->
  type_property original_tool <> Some "function" ->
  type_property original_tool ∈ [Some "integration"; Some "system"; Some "api_call"; None]
  /\ rekey_call mapping
       {[ Some "function" := VDict {[ Some "name" := VStr n; Some "arguments" := a ]} ]}
     = Ok {[ Some "type" := opt_str (type_property original_tool);
             type_property original_tool :=
               VDict {[ Some "name" := VStr n; Some "arguments" := a ]} ]}.
Proof.
  intros Hm Ht.
  rewrite (rekey_call_entries mapping _ {[ Some "name" := VStr n; Some "arguments" := a ]}
             n a original_tool);
    [ | apply lookup_singleton_eq | reflexivity | reflexivity | assumption..].
  rewrite delete_singleton_eq.
  destruct (type_property_cases original_tool) as [H|[H|[H|[H|H]]]];
    [contradiction (Ht H) | rewrite H..]; (split; [|reflexivity]);
    first [left | right; left | right; right; left | right; right; right; left].
Qed.

(** *** The settings of the generic backend's call *)

(** X4.  The keyword arguments of the completion call: a step-level setting
    wins over the agent's default of the same name, which wins over
    [model], [tools] and [messages]. *)
Lemma completion_data_overlay (agent_model : string) (prompt : list value)
    (defaults settings : gmap key value) (k : key) :
  completion_data agent_model prompt defaults settings !! k =
    match settings !! k with
    | Some v => Some v
    | None =>
        match defaults !! k with
        | Some v => Some v
        | None =>
            ({[ Some "model" := VStr agent_model;
                Some "tools" := VNone;
                Some "messages" := VList prompt ]} : dict) !! k
        end
    end.
Proof.
  unfold completion_data.
  destruct (settings !! k) as [v|] eqn:Hs.
  - apply lookup_union_Some_l. assumption.
  - rewrite lookup_union_r by assumption.
    destruct (defaults !! k) as [v|] eqn:Hd.
    + apply lookup_union_Some_l. assumption.
    + rewrite lookup_union_r by assumption. reflexivity.
Qed.

(** *** The settings a step passes on *)

Lemma lookup_exclude (keys : list string) (d : gmap key value) (k : key) :
  foldr (fun k d => delete (Some k) d) d keys !! k
  = if bool_decide (k ∈ Some <$> keys) then None else d !! k.
Proof.
  induction keys as [|k0 keys IH]; cbn.
  - rewrite bool_decide_eq_false_2 by apply not_elem_of_nil. reflexivity.
  - rewrite lookup_delete. destruct (decide (Some k0 = k)) as [<-|Hne].
    + rewrite bool_decide_eq_true_2 by left. reflexivity.
    + rewrite IH. case_bool_decide as Hin.
      * rewrite bool_decide_eq_true_2 by (right; exact Hin). reflexivity.
      * rewrite bool_decide_eq_false_2; [reflexivity|].
        intros Hin'. apply elem_of_cons in Hin' as [->|Hin']; contradiction.
Qed.

(** The [settings] field of the step as dumped, when it was set to a
    [ChatSettings]; empty otherwise. *)
Definition step_settings (context : StepContext) : gmap key value :=
  match model_dump_unset (current_step context) !! Some "settings" with
  | Some (VDict settings) => settings
  | _ => ∅
  end.

(** The settings before [tool_choice] is looked at. *)
Lemma passed_settings_merged (context : StepContext) (s : gmap key value) :
  passed_settings context = Ok s ->
  exists merged : gmap key value,
    (forall k,
        merged !! k =
          match step_settings context !! k with
          | Some v => Some v
          | None =>
              if bool_decide (k ∈ Some <$> (excluded_keys ++ ["settings"])%list) then None
              else model_dump_unset (current_step context) !! k
          end)
    /\ s = if negb (truthy (dict_get merged "tools"))
           then delete (Some "tool_choice") merged else merged.
Proof.
  unfold passed_settings, step_settings.
  set (base := foldr _ _ excluded_keys).
  assert (forall k, base !! k =
            if bool_decide (k ∈ Some <$> excluded_keys) then None
            else model_dump_unset (current_step context) !! k) as Hbase
    by (intros k; apply lookup_exclude).
  assert (base !! Some "settings"
          = model_dump_unset (current_step context) !! Some "settings") as Hset
    by (rewrite Hbase; reflexivity).
  rewrite Hset.
  assert (forall k,
             bool_decide (k ∈ Some <$> (excluded_keys ++ ["settings"])%list)
             = bool_decide (k ∈ Some <$> excluded_keys) || bool_decide (k = Some "settings"))
    as Hsplit.
  { intros k. rewrite fmap_app. apply eq_true_iff_eq.
    rewrite orb_true_iff, !bool_decide_eq_true, elem_of_app.
    cbn. rewrite list_elem_of_singleton. reflexivity. }
  destruct (model_dump_unset (current_step context) !! Some "settings")
    as [v|] eqn:Hdump.
  - destruct v; try discriminate. rewrite bind_Ok.
    intros H. exists (d ∪ delete (Some "settings") base). split.
    + intros k. rewrite lookup_union.
      destruct (d !! k) as [x|] eqn:Hd.
      * destruct (delete (Some "settings") base !! k); reflexivity.
      * rewrite Hsplit, lookup_delete, Hbase.
        destruct (decide (Some "settings" = k)) as [<-|Hne].
        -- cbn. rewrite orb_true_r. reflexivity.
        -- rewrite (bool_decide_eq_false_2 (k = Some "settings")) by congruence.
           rewrite orb_false_r.
           destruct (bool_decide (k ∈ Some <$> excluded_keys)); cbn;
             [reflexivity|]. destruct (model_dump_unset _ !! k); reflexivity.
    + destruct (negb _); congruence.
  - rewrite bind_Ok. intros H. exists base. split.
    + intros k. rewrite lookup_empty, Hsplit, Hbase.
      destruct (bool_decide (k ∈ Some <$> excluded_keys)); cbn; [reflexivity|].
      case_bool_decide as Hk; [subst k; exact Hdump | reflexivity].
    + destruct (negb _); congruence.
Qed.

Lemma merged_tools (context : StepContext) (merged : gmap key value) :
  (forall k,
      merged !! k =
        match step_settings context !! k with
        | Some v => Some v
        | None =>
            if bool_decide (k ∈ Some <$> (excluded_keys ++ ["settings"])%list) then None
            else model_dump_unset (current_step context) !! k
        end) ->
  dict_get merged "tools" = dict_get (step_settings context) "tools".
Proof.
  intros H. unfold dict_get. rewrite H.
  destruct (step_settings context !! Some "tools"); reflexivity.
Qed.

(** X6.  The settings a step passes to the backend never hold
    [tool_choice] unless the step's [settings] carry a truthy [tools]:
    the step's own [tools] field is excluded before the test, so a
    [tool_choice] set on the step is dropped whatever tools it has. *)
Theorem passed_settings_tool_choice (context : StepContext) (s : gmap key value) :
  passed_settings context = Ok s ->
  truthy (dict_get (step_settings context) "tools") = false ->
  s !! Some "tool_choice" = None.
Proof.
  intros Hs Htools.
  destruct (passed_settings_merged context s Hs) as (merged & Hm & ->).
  rewrite (merged_tools context merged Hm), Htools. cbn.
  apply lookup_delete_eq.
Qed.

(** X7.  What the passed settings hold: an entry of the step's
    [settings] wins over a field of the step of the same name; the
    excluded fields ([prompt], [kind_], [label], [unwrap],
    [auto_run_tools], [disable_cache], [tools]) and [settings] itself are
    passed only if [settings] holds an entry of that name; every other
    field that was set on the step, [tool_choice] apart, is passed as it
    is. *)
Theorem passed_settings_overlay (context : StepContext) (s : gmap key value) :
  passed_settings context = Ok s ->
  (forall k v,
      step_settings context !! k = Some v ->
      k <> Some "tool_choice" ->
      s !! k = Some v)
  /\ (forall k,
        k ∈ (excluded_keys ++ ["settings"])%list ->
        step_settings context !! Some k = None ->
        s !! Some k = None)
  /\ (forall k,
        k ∉ Some <$> (excluded_keys ++ ["settings"; "tool_choice"])%list ->
        step_settings context !! k = None ->
        s !! k = model_dump_unset (current_step context) !! k).
Proof.
  intros Hs.
  destruct (passed_settings_merged context s Hs) as (merged & Hm & ->).
  assert (forall k,
             k <> Some "tool_choice" ->
             (if negb (truthy (dict_get merged "tools"))
              then delete (Some "tool_choice") merged else merged) !! k
             = merged !! k) as Hkeep.
  { intros k Hk. destruct (negb _); [|reflexivity].
    apply lookup_delete_ne. congruence. }
  split; [|split].
  - intros k v Hk Hne. rewrite Hkeep by assumption. rewrite Hm, Hk. reflexivity.
  - intros k Hin Hk. rewrite Hkeep.
    + rewrite Hm, Hk. rewrite bool_decide_eq_true_2; [reflexivity|].
      apply list_elem_of_fmap. exists k. split; [reflexivity | assumption].
    + intros [= ->]. revert Hin. unfold excluded_keys. cbn.
      rewrite !elem_of_cons, elem_of_nil. intros H.
      decompose [or] H; discriminate || contradiction.
  - intros k Hnotin Hk. rewrite Hkeep.
    + rewrite Hm, Hk. rewrite bool_decide_eq_false_2; [reflexivity|].
      intros Hin. apply Hnotin. rewrite fmap_app in *.
      apply elem_of_app in Hin as [Hin|Hin]; apply elem_of_app; [left; assumption|].
      right. cbn in *. apply elem_of_cons in Hin as [->|Hin]; [left|].
      apply elem_of_nil in Hin. contradiction.
    + intros ->. apply Hnotin. rewrite fmap_app. apply elem_of_app. right.
      cbn. right. left.
Qed.

(** X8.  Building the passed settings fails exactly when the step's
    [settings] was set to something that is not a dict ([None], say);
    the error is a [TypeError]. *)
Theorem passed_settings_raises (context : StepContext) (e : exn) :
  passed_settings context = Raise e
  <-> exists v,
      model_dump_unset (current_step context) !! Some "settings" = Some v
      /\ (forall settings, v <> VDict settings)
      /\ e = TypeError "object is not iterable".
Proof.
  unfold passed_settings.
  rewrite (lookup_exclude excluded_keys _ (Some "settings")).
  rewrite bool_decide_eq_false_2.
  2:{ unfold excluded_keys. cbn. rewrite !elem_of_cons, elem_of_nil.
      intros H. decompose [or] H; discriminate || contradiction. }
  destruct (model_dump_unset (current_step context) !! Some "settings") as [v|].
  - destruct v; cbn;
      try (split;
           [ intros [= <-]; eexists; split; [reflexivity|]; split;
             [intros settings; discriminate | reflexivity]
           | intros (v & [= <-] & _ & ->); reflexivity ]).
    split.
    + destruct (negb _); discriminate.
    + intros (v & [= <-] & Hv & _). contradiction (Hv d). reflexivity.
  - cbn. split.
    + destruct (negb _); discriminate.
    + intros (v & Hv & _). discriminate.
Qed.


(** *** What the native-tools backend is sent *)

(** X9.  The messages sent to the native-tools backend: as many as the
    prompt has, in order; each is exactly [{role: "user", content: c}]
    with [c] the content of the prompt's message, so the role a message
    had (and any other entry, a name say) is not passed on. *)
Theorem anthropic_prompt_user_roles (prompt messages : list value) :
  anthropic_prompt prompt = Ok messages ->
  length messages = length prompt
  /\ forall i message',
      messages !! i = Some message' ->
      exists message c,
        prompt !! i = Some message
        /\ getitem message "content" = Ok c
        /\ message' = VDict {[ Some "role" := VStr "user"; Some "content" := c ]}.
Proof.
  unfold anthropic_prompt. intros H. apply mapM_Ok_Forall2 in H.
  split; [symmetry; eapply Forall2_length; exact H|].
  intros i message' Hi.
  destruct (Forall2_lookup_r _ _ _ _ _ H Hi) as (message & Hmessage & Hc).
  destruct (getitem message "content") as [c|e] eqn:Hget; [|discriminate].
  rewrite bind_Ok in Hc. injection Hc as <-.
  exists message, c. repeat split; assumption.
Qed.

(** X10.  A prompt one of whose messages has no content cannot be sent
    to the native-tools backend: the conversion raises what reading the
    content of such a message raises (a [KeyError] for a dict without
    ["content"]). *)
Theorem anthropic_prompt_raises (prompt : list value) (e : exn) :
  anthropic_prompt prompt = Raise e ->
  exists message, message ∈ prompt /\ getitem message "content" = Raise e.
Proof.
  unfold anthropic_prompt. intros H.
  apply mapM_Raise_elem in H as (message & Hin & Hm).
  exists message. split; [assumption|].
  destruct (getitem message "content"); [discriminate | assumption].
Qed.

Lemma filtered_tools_Ok (ftools filtered : list (gmap key value)) :
  filtered_tools ftools = Ok filtered ->
  Forall (fun tool => is_Some (tool !! Some "type")) ftools
  /\ filtered
     = List.filter (fun tool => in_strs (dict_get tool "type") native_kinds) ftools.
Proof.
  revert filtered. induction ftools as [|tool ftools IH]; intros filtered.
  - intros [= <-]. split; [constructor | reflexivity].
  - cbn [filtered_tools]. unfold dict_getitem.
    destruct (tool !! Some "type") as [t|] eqn:Ht; [rewrite bind_Ok|discriminate].
    destruct (filtered_tools ftools) as [rest|e] eqn:Hrest;
      [rewrite bind_Ok|discriminate].
    destruct (IH rest eq_refl) as [Hall Heq].
    intros [= <-]. split.
    + constructor; [eexists; exact Ht | assumption].
    + cbn [List.filter]. unfold dict_get at 1. rewrite Ht. cbn [default].
      rewrite <- Heq. destruct (in_strs t native_kinds); reflexivity.
Qed.

(** X11.  The tools sent to the native-tools backend are exactly the
    formatted tools of a model-native type, in their order; and whenever
    the filter returns, the routing test [any(...)] holds if and only if
    that list is not empty, so the native backend is never called
    without a tool. *)
Theorem filtered_tools_native (ftools filtered : list (gmap key value)) :
  filtered_tools ftools = Ok filtered ->
  (forall tool,
      tool ∈ filtered
      <-> tool ∈ ftools
          /\ exists t, tool !! Some "type" = Some (VStr t) /\ t ∈ native_kinds)
  /\ filtered `sublist_of` ftools
  /\ any_native_tool ftools = Ok (negb (Nat.eqb (length filtered) 0)).
Proof.
  intros H. apply filtered_tools_Ok in H as [Hall ->].
  assert (forall tool : gmap key value,
             in_strs (dict_get tool "type") native_kinds = true
             <-> exists t, tool !! Some "type" = Some (VStr t) /\ t ∈ native_kinds)
    as Hnative.
  { intros tool. unfold in_strs, dict_get. rewrite existsb_exists. split.
    - intros (k & Hk & Heq). destruct (tool !! Some "type") as [[]|]; try discriminate.
      cbn in Heq. apply String.eqb_eq in Heq as ->.
      exists k. split; [reflexivity | apply list_elem_of_In; assumption].
    - intros (t & -> & Hin). exists t. split; [apply list_elem_of_In; assumption|].
      cbn. apply String.eqb_refl. }
  split; [|split].
  - intros tool. rewrite list_elem_of_In, filter_In, <- list_elem_of_In, Hnative.
    reflexivity.
  - clear Hall. induction ftools as [|tool ftools IH]; [constructor|].
    cbn [List.filter].
    destruct (in_strs _ _); [apply sublist_skip | apply sublist_cons]; exact IH.
  - induction Hall as [|tool ftools [t Ht] _ IH]; [reflexivity|].
    cbn [any_native_tool List.filter]. unfold dict_getitem, dict_get at 1.
    rewrite Ht, bind_Ok. cbn [default id].
    destruct (in_strs t native_kinds); [reflexivity | exact IH].
Qed.

(** *** Unwrapping the native backend's answer *)

(** X12.  The response built from a Claude answer always has exactly
    one choice.  Unwrapped, it gives the text of the answer's text block
    when the stop reason is not ["tool_use"], and the error "Tool calls
    cannot be unwrapped" when it is; "Only one choice is supported"
    cannot arise. *)
Theorem unwrap_claude_response (claude_response : Anthropic.BetaMessage)
    (response : Litellm.ModelResponse Litellm.ChatCompletionMessageToolCall) :
  claude_model_response claude_response = Ok response ->
  length (Litellm.choices response) = 1%nat
  /\ (Anthropic.stop_reason claude_response = Some "tool_use" ->
      unwrap_response response
        = Raise (ApplicationError "Tool calls cannot be unwrapped"))
  /\ (Anthropic.stop_reason claude_response <> Some "tool_use" ->
      exists text_block,
        blocks_of_type "text" (Anthropic.content claude_response) = [text_block]
        /\ unwrap_response response
           = Ok {| output := OutputContent (Some (Anthropic.text text_block));
                   next := None |}).
Proof.
  unfold claude_model_response, claude_choice.
  destruct (blocks_of_type "text" (Anthropic.content claude_response))
    as [|text_block [|text_block' texts]] eqn:Htexts; cbn.
  - case_bool_decide as Hstop; cbn.
    + destruct (tool_calls_of_blocks _ _) as [calls|e']; [rewrite !bind_Ok|discriminate].
      intros [= <-]. split; [reflexivity|]. split; [intros _; reflexivity|].
      intros Hne. contradiction.
    + discriminate.
  - case_bool_decide as Hstop; cbn.
    + destruct (tool_calls_of_blocks _ _) as [calls|e']; [rewrite !bind_Ok|discriminate].
      intros [= <-]. split; [reflexivity|]. split; [intros _; reflexivity|].
      intros Hne. contradiction.
    + intros [= <-]. split; [reflexivity|]. split; [intros Heq; contradiction|].
      intros _. exists text_block. split; reflexivity.
  - discriminate.
Qed.


(** *** When formatting a tool fails, and what it gives *)

(** X13.  Formatting a tool fails in exactly two cases: the tool is a
    system tool and the reflection of its handler fails, or it is an
    integration tool.  Every integration tool fails: with a provider (or
    provider and method) that is not in the map of known integrations,
    by the read of [arguments] on [None]; with a known one, by the read
    of [arguments] on the definition class.  A function tool, an
    API-call tool and a tool of no such kind always format. *)
Theorem format_tool_raises (tool : Tool) (e : exn) :
  format_tool tool = Raise e
  <-> (type_property tool = Some "system"
       /\ get_input_jsonschema (system tool) = Raise e)
      \/ (type_property tool = Some "integration"
          /\ exists i,
              integration tool = Some i
              /\ e = AttributeError
                       match lookup_integration i with
                       | None => "'NoneType' object has no attribute 'arguments'"
                       | Some _ => "arguments"
                       end).
Proof.
  unfold format_tool.
  destruct (type_property_cases tool) as [H|[H|[H|[H|H]]]]; rewrite H; cbn.
  - split; [discriminate|]. intros [[Ht _]|[Ht _]]; discriminate Ht.
  - destruct (type_property_integration tool H) as [i Hi].
    rewrite Hi. cbn.
    destruct (lookup_integration i) as [d|] eqn:Hd.
    + rewrite (_get_integration_arguments_known tool i d Hi Hd), bind_Raise. split.
      * intros [= <-]. right. split; [reflexivity|]. exists i. rewrite Hd. auto.
      * intros [[Ht _]|[_ (i' & [= <-] & ->)]]; [discriminate Ht|].
        rewrite Hd. reflexivity.
    + rewrite (_get_integration_arguments_unknown tool i Hi Hd), bind_Raise. split.
      * intros [= <-]. right. split; [reflexivity|]. exists i. rewrite Hd. auto.
      * intros [[Ht _]|[_ (i' & [= <-] & ->)]]; [discriminate Ht|].
        rewrite Hd. reflexivity.
  - destruct (get_input_jsonschema (system tool)) as [json_schema|e'].
    + rewrite bind_Ok. split; [discriminate|].
      intros [[_ He]|[Ht _]]; [discriminate He | discriminate Ht].
    + rewrite bind_Raise. split.
      * intros [= <-]. left. split; reflexivity.
      * intros [[_ [= <-]]|[Ht _]]; [reflexivity | discriminate Ht].
  - split.
    + destruct (is_set (api_call tool)); discriminate.
    + intros [[Ht _]|[Ht _]]; discriminate Ht.
  - split; [discriminate|]. intros [[Ht _]|[Ht _]]; discriminate Ht.
Qed.

(** X14.  The descriptor of a tool, by the variant it carries.  A tool
    with a [function] is described with the declared parameters, whatever
    else it carries; an API-call tool with its request schema; a system
    tool with the reflected schema of its handler, whose description
    stands in when the tool has none; and a tool carrying none of
    [function], [integration], [system], [api_call] is described by name
    and description only, with no parameters. *)
Theorem format_tool_by_variant (tool : Tool) :
  (forall f,
      function tool = Some f ->
      format_tool tool =
        Ok {[ Some "type" := VStr "function";
              Some "function" :=
                VDict {[ Some "name" := VStr (name tool);
                         Some "description" := opt_str (description tool);
                         Some "parameters" := parameters f ]} ]})
  /\ (forall a,
        function tool = None -> integration tool = None -> system tool = None ->
        api_call tool = Some a ->
        format_tool tool =
          Ok {[ Some "type" := VStr "function";
                Some "function" :=
                  VDict {[ Some "name" := VStr (name tool);
                           Some "description" := opt_str (description tool);
                           Some "parameters" := schema_ a ]} ]})
  /\ (forall s json_schema,
        function tool = None -> integration tool = None ->
        system tool = Some s ->
        get_input_jsonschema (Some s) = Ok json_schema ->
        format_tool tool =
          Ok {[ Some "type" := VStr "function";
                Some "function" :=
                  VDict {[ Some "name" := VStr (name tool);
                           Some "description" :=
                             or_ (opt_str (description tool))
                                 (dict_get json_schema "description");
                           Some "parameters" := VDict json_schema ]} ]})
  /\ (function tool = None -> integration tool = None -> system tool = None ->
      api_call tool = None ->
      format_tool tool =
        Ok {[ Some "type" := VStr "function";
              Some "function" :=
                VDict {[ Some "name" := VStr (name tool);
                         Some "description" := opt_str (description tool) ]} ]}).
Proof.
  unfold format_tool, type_property. repeat apply conj.
  - intros f ->. reflexivity.
  - intros a -> -> -> ->. reflexivity.
  - intros s json_schema -> -> -> Hjs. cbn. rewrite Hjs. reflexivity.
  - intros -> -> -> ->. reflexivity.
Qed.

(** *** Maps built by successive insertions *)

Section FoldlInsert.

Context {A V : Type} (kf : A -> key) (vf : A -> V).

Definition insert_all (acc : gmap key V) (l : list A) : gmap key V :=
  foldl (fun m x => <[kf x := vf x]> m) acc l.

Lemma insert_all_notin (l : list A) (acc : gmap key V) (k : key) :
  (forall x, x ∈ l -> kf x <> k) -> insert_all acc l !! k = acc !! k.
Proof.
  revert acc. induction l as [|x l IH]; intros acc Hl; [reflexivity|].
  cbn. rewrite IH.
  - apply lookup_insert_ne. apply Hl. left.
  - intros y Hy. apply Hl. right. assumption.
Qed.

Lemma insert_all_last (l1 l2 : list A) (x : A) (acc : gmap key V) :
  (forall y, y ∈ l2 -> kf y <> kf x) ->
  insert_all acc (l1 ++ x :: l2)%list !! kf x = Some (vf x).
Proof.
  intros Hl2. unfold insert_all. rewrite foldl_app. cbn.
  fold (insert_all (<[kf x:=vf x]> (foldl (fun m x => <[kf x := vf x]> m) acc l1)) l2).
  rewrite insert_all_notin by assumption. apply lookup_insert_eq.
Qed.


End FoldlInsert.

(** X15.  When two tools of a step have the same name, a call of that
    name resolves to the later one: the reverse map holds, under a name,
    the last tool of the step that has it. *)
Theorem tools_mapping_last_wins (context : StepContext)
    (ftools : list (gmap key value)) (mapping : gmap key Tool)
    (before after : list Tool) (tool : Tool) :
  formatted_tools context = Ok ftools ->
  tools_mapping ftools (tools context) = Ok mapping ->
  tools context = (before ++ tool :: after)%list ->
  (forall tool', tool' ∈ after -> name tool' <> name tool) ->
  mapping !! Some (name tool) = Some tool.
Proof.
  unfold formatted_tools, tools_mapping. intros Hf Hm Htools Hafter.
  apply mapM_Ok_Forall2 in Hf.
  rewrite (tools_mapping_from_foldl _ _ _ Hf) in Hm. injection Hm as <-.
  rewrite Htools.
  apply (insert_all_last (fun t => Some (name t)) (fun t => t)).
  intros tool' Hin [= Hname]. exact (Hafter tool' Hin Hname).
Qed.

(** *** The loop over the fields of an argument model *)




(** *** Responses that are returned as they are *)

Lemma mapM_unchanged {A : Type} (f : A -> result A) (l : list A) :
  (forall x, x ∈ l -> f x = Ok x) -> mapM f l = Ok l.
Proof.
  intros H. apply mapM_Ok_Forall2. induction l as [|x l IH]; constructor.
  - apply H. left.
  - apply IH. intros y Hy. apply H. right. exact Hy.
Qed.

(** X28.  A step that is not unwrapped returns the response exactly as
    dumped, none of its entries changed, whenever every tool call of
    every choice that finished with ["tool_calls"] names a function tool;
    in particular whenever no choice finished with ["tool_calls"]. *)
Theorem rekey_response_unchanged (mapping : gmap key Tool)
    (response : Litellm.ModelResponse Litellm.ChatCompletionMessageToolCall) :
  (forall choice,
      choice ∈ Litellm.choices response ->
      Litellm.finish_reason choice = "tool_calls" ->
      exists calls,
        Litellm.tool_calls (Litellm.message choice) = Some calls
        /\ forall call,
            call ∈ calls ->
            exists original_tool,
              mapping !! Some (Litellm.name (Litellm.function call)) = Some original_tool
              /\ type_property original_tool = Some "function") ->
  rekey_response mapping response
  = Ok {| output := OutputResponse (Litellm.model_dump response); next := None |}.
Proof.
  intros H. unfold rekey_response.
  rewrite (mapM_unchanged (rekey_choice mapping)).
  - rewrite bind_Ok. reflexivity.
  - intros d Hd. cbn in Hd. apply list_elem_of_fmap in Hd as (choice & -> & Hin).
    unfold rekey_choice. cbn.
    destruct (String.eqb_spec (Litellm.finish_reason choice) "tool_calls") as [Hfr|Hfr];
      [|reflexivity].
    destruct (H choice Hin Hfr) as (calls & Hcalls & Hfunction).
    rewrite Hcalls. cbn.
    rewrite (mapM_unchanged (rekey_call mapping)).
    + rewrite bind_Ok. unfold Litellm.dump_choice, Litellm.dump_message.
      rewrite Hcalls. reflexivity.
    + intros c Hc. apply list_elem_of_fmap in Hc as (call & -> & Hcall).
      destruct (Hfunction call Hcall) as (original_tool & Hm & Ht).
      rewrite rekey_call_dump, Hm. cbn.
      rewrite bool_decide_eq_true_2 by exact Ht. reflexivity.
Qed.


End Collaborators.

(** ** The prompt step at concrete inputs *)

(** Collaborators that answer with fixed values: system handlers have
    an empty schema, every expression evaluates to [v], templates render
    to themselves, the backends answer with [claude] and [r], and
    [json_stub] serialises a dict of strings. *)
Definition integration_class (n : string) : BaseIntegrationDef := {| class_name := n |}.

Definition schema_stub (_ : option SystemDef) : result dict := Ok ∅.

Definition evaluate_stub (v : value) (_ : string) (_ : dict) : result value := Ok v.

Definition render_stub (messages : list value) (_ : dict) (_ : list string)
  : result (list value) := Ok messages.

Definition claude_stub (claude : Anthropic.BetaMessage)
    (_ : string) (_ : list value) (_ : list dict) (_ : Z) (_ : list string)
  : result Anthropic.BetaMessage := Ok claude.

Definition completion_stub
    (r : Litellm.ModelResponse Litellm.ChatCompletionMessageToolCall)
    (_ _ : dict)
  : result (Litellm.ModelResponse Litellm.ChatCompletionMessageToolCall) := Ok r.

Definition uuid_stub (i : nat) : string := "call_" ++ pretty i.

(** A string between double quotes, and the JSON text of a dict whose
    values are strings, with the separators of [json.dumps]. *)
Definition quoted (s : string) : string :=
  String (ascii_of_nat 34) s ++ String (ascii_of_nat 34) EmptyString.

Definition json_item (kv : key * value) : result string :=
  match kv with
  | (Some k, VStr s) => Ok (quoted k ++ ": " ++ quoted s)
  | _ => Raise (TypeError "Object is not JSON serializable")
  end.

Definition json_stub (d : dict) : result string :=
  items ← mapM json_item (map_to_list d);
  Ok ("{" ++ String.concat ", " items ++ "}").

(** [f] applied to these collaborators. *)
Notation "'with_tool_stubs_classes' f" :=
  (f (integration_class "BraveIntegrationDef")
     (integration_class "DummyIntegrationDef")
     (integration_class "EmailIntegrationDef")
     (integration_class "SpiderIntegrationDef")
     (integration_class "WikipediaIntegrationDef")
     (integration_class "WeatherIntegrationDef")
     (integration_class "BrowserbaseContextIntegrationDef")
     (integration_class "BrowserbaseExtensionIntegrationDef")
     (integration_class "BrowserbaseListSessionsIntegrationDef")
     (integration_class "BrowserbaseCreateSessionIntegrationDef")
     (integration_class "BrowserbaseGetSessionIntegrationDef")
     (integration_class "BrowserbaseCompleteSessionIntegrationDef")
     (integration_class "BrowserbaseGetSessionLiveUrlsIntegrationDef")
     (integration_class "BrowserbaseGetSessionConnectUrlIntegrationDef")
     (integration_class "RemoteBrowserIntegrationDef"))
  (at level 10, f at level 9, only parsing).

Notation "'with_tool_stubs' f" :=
  (with_tool_stubs_classes f schema_stub)
  (at level 10, f at level 9, only parsing).

Notation "'with_stubs' f v claude r" :=
  (with_tool_stubs f (evaluate_stub v) render_stub (claude_stub claude)
     (completion_stub r) 0 uuid_stub json_stub false)
  (at level 10, f at level 9, v at level 9, claude at level 9, r at level 9,
   only parsing).

Definition hello_choice : Litellm.Choices Litellm.ChatCompletionMessageToolCall :=
  {| Litellm.message :=
       {| Litellm.role := "assistant"; Litellm.content := Some "Hello";
          Litellm.tool_calls := None |};
     Litellm.finish_reason := "stop" |}.

Definition hello_response
  : Litellm.ModelResponse Litellm.ChatCompletionMessageToolCall :=
  {| Litellm.id := "chatcmpl-1"; Litellm.choices := [hello_choice];
     Litellm.created := 1730000000; Litellm.model := "gpt-4o";
     Litellm.object := "chat.completion" |}.

Definition idle_claude : Anthropic.BetaMessage :=
  {| Anthropic.id := "msg_0"; Anthropic.content := [];
     Anthropic.model := "claude-3-5-sonnet-20241022";
     Anthropic.stop_reason := None |}.

(** A step with [unwrap] set and no tools. *)
Definition unwrap_context : StepContext :=
  {| current_step :=
       {| prompt := VStr "Say hello"; unwrap := true; disable_cache := false;
          model_dump_unset := {[ Some "unwrap" := VBool true ]} |};
     agent := {| default_settings := None; model := None |};
     tools := [];
     prepare_for_step := ∅ |}.

Definition say_hello : list value :=
  [VDict {[ Some "role" := VStr "user"; Some "content" := VStr "Say hello" ]}].

(** C1 at [unwrap_context], answered with [hello_response]. *)
Lemma prompt_step_unwrap_witness :
  (unwrap (current_step unwrap_context) = true
   /\ Litellm.choices hello_response = [hello_choice]
   /\ Litellm.finish_reason hello_choice <> "tool_calls")
  /\ with_stubs prompt_step VNone idle_claude hello_response unwrap_context
     = Ok {| output := OutputContent (Some "Hello"); next := None |}.
Proof.
  split; [split; [reflexivity | split; [reflexivity | discriminate]]|].
  refine (proj1 (with_stubs prompt_step_unwrap VNone idle_claude hello_response
                   unwrap_context say_hello ∅ [] ∅ hello_response
                   eq_refl eq_refl eq_refl eq_refl eq_refl eq_refl)
            hello_choice eq_refl _).
  discriminate.
Defined.

(** C10 at [generic_context], answered with [hello_response]. *)
Lemma prompt_step_next_None_witness :
  with_stubs prompt_step VNone idle_claude hello_response generic_context
  = Ok {| output := OutputResponse (Litellm.model_dump hello_response);
          next := None |}
  /\ next {| output := OutputResponse (Litellm.model_dump hello_response);
             next := None |} = None.
Proof.
  split; [reflexivity|].
  exact (with_stubs prompt_step_next_None VNone idle_claude hello_response
           generic_context _ eq_refl).
Defined.
(** An agent with one API-call tool, [search], and a response calling
    it. *)
Definition search_tool : Tool :=
  {| name := "search"; description := Some "Search the web";
     function := None; integration := None; system := None;
     api_call := Some {| schema_ := VDict {[ Some "type" := VStr "object" ]} |};
     computer_20241022 := None;
     text_editor_20241022 := None; bash_20241022 := None |}.

Definition search_context : StepContext :=
  {| current_step :=
       {| prompt := VStr "Find the Rocq reference manual"; unwrap := false;
          disable_cache := false; model_dump_unset := ∅ |};
     agent := {| default_settings := None; model := Some "gpt-4o" |};
     tools := [search_tool];
     prepare_for_step := ∅ |}.

Definition search_descriptor : dict :=
  {[ Some "type" := VStr "function";
     Some "function" :=
       VDict
         {[ Some "name" := VStr "search";
            Some "description" := VStr "Search the web";
            Some "parameters" := VDict {[ Some "type" := VStr "object" ]} ]} ]}.

(** The JSON text of [{query: rocq reference manual}]. *)
Definition search_arguments : string :=
  "{" ++ quoted "query" ++ ": " ++ quoted "rocq reference manual" ++ "}".

Definition search_call : Litellm.ChatCompletionMessageToolCall :=
  {| Litellm.call_id := "call_1"; Litellm.call_type := "function";
     Litellm.function :=
       {| Litellm.name := "search"; Litellm.arguments := search_arguments |} |}.

Definition search_response
  : Litellm.ModelResponse Litellm.ChatCompletionMessageToolCall :=
  {| Litellm.id := "chatcmpl-2";
     Litellm.choices :=
       [{| Litellm.message :=
             {| Litellm.role := "assistant"; Litellm.content := None;
                Litellm.tool_calls := Some [search_call] |};
           Litellm.finish_reason := "tool_calls" |}];
     Litellm.created := 1730000000; Litellm.model := "gpt-4o";
     Litellm.object := "chat.completion" |}.

Definition find_manual : list value :=
  [VDict {[ Some "role" := VStr "user";
            Some "content" := VStr "Find the Rocq reference manual" ]}].

(** X29 at [search_context], answered with [search_response]: the call
    of the API-call tool [search] is re-keyed. *)
Lemma prompt_step_rekeys_by_type_witness :
  (unwrap (current_step search_context) = false
   /\ with_tool_stubs formatted_tools search_context = Ok [search_descriptor]
   /\ tools_mapping [search_descriptor] (tools search_context)
      = Ok {[ Some "search" := search_tool ]}
   /\ type_property search_tool = Some "api_call")
  /\ rekey_call {[ Some "search" := search_tool ]} (Litellm.dump_call search_call)
     = Ok {[ Some "type" := VStr "api_call";
             Some "api_call" :=
               VDict {[ Some "name" := VStr "search";
                        Some "arguments" := VStr search_arguments ]};
             Some "id" := VStr "call_1" ]}.
Proof.
  split; [repeat split|].
  refine (proj2 (proj1 (proj2
            (with_stubs prompt_step_rekeys_by_type VNone idle_claude search_response
               search_context find_manual ∅ [search_descriptor]
               {[ Some "search" := search_tool ]} search_response
               eq_refl eq_refl eq_refl eq_refl eq_refl eq_refl))
            search_call search_tool eq_refl _)).
  discriminate.
Defined.

(** A step of an agent with the model-native tool [computer_tool], and a
    response that calls it. *)
Definition computer_context : StepContext :=
  {| current_step :=
       {| prompt := VStr "Take a screenshot"; unwrap := false;
          disable_cache := false; model_dump_unset := ∅ |};
     agent := {| default_settings := None; model := Some "claude-3.5-sonnet" |};
     tools := [computer_tool];
     prepare_for_step := ∅ |}.

(** What [format_tool] makes of [computer_tool], its type being [None]. *)
Definition computer_function_descriptor : dict :=
  {[ Some "type" := VStr "function";
     Some "function" :=
       VDict {[ Some "name" := VStr "computer"; Some "description" := VNone ]} ]}.

(** The JSON text of [{action: screenshot}]. *)
Definition screenshot_arguments : string :=
  "{" ++ quoted "action" ++ ": " ++ quoted "screenshot" ++ "}".

Definition computer_call : Litellm.ChatCompletionMessageToolCall :=
  {| Litellm.call_id := "call_1"; Litellm.call_type := "function";
     Litellm.function :=
       {| Litellm.name := "computer"; Litellm.arguments := screenshot_arguments |} |}.

Definition computer_response
  : Litellm.ModelResponse Litellm.ChatCompletionMessageToolCall :=
  {| Litellm.id := "chatcmpl-3";
     Litellm.choices :=
       [{| Litellm.message :=
             {| Litellm.role := "assistant"; Litellm.content := None;
                Litellm.tool_calls := Some [computer_call] |};
           Litellm.finish_reason := "tool_calls" |}];
     Litellm.created := 1730000000; Litellm.model := "claude-3.5-sonnet";
     Litellm.object := "chat.completion" |}.

(** The call object the claim describes for a call of [computer_tool],
    its kind being [computer_20241022], and the one the code makes. *)
Definition computer_call_claimed : dict :=
  {[ Some "type" := VStr "computer_20241022";
     Some "computer_20241022" :=
       VDict {[ Some "name" := VStr "computer";
                Some "arguments" := VStr screenshot_arguments ]};
     Some "id" := VStr "call_1" ]}.

Definition computer_call_rekeyed : dict :=
  {[ Some "type" := VNone;
     None :=
       VDict {[ Some "name" := VStr "computer";
                Some "arguments" := VStr screenshot_arguments ]};
     Some "id" := VStr "call_1" ]}.

(** C2, at the failing input.  The step [computer_context] has one
    tool, whose only populated variant is [computer_20241022]; the
    reverse map resolves the name ["computer"] to it.  A call of that
    name is not rewritten to the object of kind [computer_20241022]: its
    ["type"] is set to [None] and the name and the arguments are stored
    under the key [None], and that is the call the step returns. *)
Theorem prompt_step_rekeys_native_tool_call :
  populated_variants computer_tool = ["computer_20241022"]
  /\ with_tool_stubs formatted_tools computer_context
     = Ok [computer_function_descriptor]
  /\ tools_mapping [computer_function_descriptor] (tools computer_context)
     = Ok {[ Some "computer" := computer_tool ]}
  /\ rekey_call {[ Some "computer" := computer_tool ]} (Litellm.dump_call computer_call)
     = Ok computer_call_rekeyed
  /\ computer_call_rekeyed <> computer_call_claimed
  /\ with_stubs prompt_step VNone idle_claude computer_response computer_context
     = Ok {| output :=
               OutputResponse
                 {| Litellm.id := "chatcmpl-3";
                    Litellm.choices :=
                      [{| Litellm.message :=
                            {| Litellm.role := "assistant"; Litellm.content := None;
                               Litellm.tool_calls := Some [computer_call_rekeyed] |};
                          Litellm.finish_reason := "tool_calls" |}];
                    Litellm.created := 1730000000;
                    Litellm.model := "claude-3.5-sonnet";
                    Litellm.object := "chat.completion" |};
             next := None |}.
Proof.
  repeat apply conj; try reflexivity.
  intros H. apply (f_equal (fun d : dict => d !! Some "type")) in H.
  discriminate H.
Qed.



(** A prompt that is an expression. *)
Definition greeting_context : StepContext :=
  {| current_step :=
       {| prompt := VStr "$_ 'hi ' + inputs[0]['name']"; unwrap := false;
          disable_cache := false; model_dump_unset := ∅ |};
     agent := {| default_settings := None; model := Some "gpt-4o" |};
     tools := [];
     prepare_for_step := ∅ |}.

(** C6 (amended) at [greeting_context], the expression evaluating to a
    string. *)
Lemma render_prompt_evaluated_witness :
  (prompt (current_step greeting_context) = VStr "$_ 'hi ' + inputs[0]['name']"
   /\ startswith "$_ 'hi ' + inputs[0]['name']" EVAL_PROMPT_PREFIX = true
   /\ evaluate_stub (VStr "hi ada")
        (strip (drop_str 3 "$_ 'hi ' + inputs[0]['name']"))
        (prepare_for_step greeting_context)
      = Ok (VStr "hi ada"))
  /\ render_prompt (evaluate_stub (VStr "hi ada")) render_stub greeting_context
     = Ok [VDict {[ Some "role" := VStr "user"; Some "content" := VStr "hi ada" ]}].
Proof.
  split; [repeat split|].
  refine (proj1 (proj2
            (with_stubs render_prompt_evaluated (VStr "hi ada") idle_claude hello_response
               greeting_context "$_ 'hi ' + inputs[0]['name']" (VStr "hi ada")
               eq_refl eq_refl eq_refl))
            "hi ada" eq_refl).
Defined.

(** A message, in the specification's words: a map with a role and a
    content; a list of messages is a list whose every element is one. *)
Definition is_message (v : value) : bool :=
  match v with
  | VDict d => bool_decide (is_Some (d !! Some "role"))
               && bool_decide (is_Some (d !! Some "content"))
  | _ => false
  end.

Definition is_message_list (v : value) : bool :=
  match v with
  | VList l => forallb is_message l
  | _ => false
  end.

Definition is_str (v : value) : bool :=
  match v with
  | VStr _ => true
  | _ => false
  end.

(** C6 as stated does not hold: an expression that evaluates to the list
    [[1]], which is neither a string nor a list of messages, raises no
    invalid-prompt-expression error; the list becomes the prompt. *)
Lemma render_prompt_list_not_of_messages :
  ~ (forall (base_evaluate : string -> dict -> result value)
            (render_template : list value -> dict -> list string -> result (list value))
            (context : StepContext) (s : string) (v : value),
        prompt (current_step context) = VStr s ->
        startswith s EVAL_PROMPT_PREFIX = true ->
        base_evaluate (strip (drop_str 3 s)) (prepare_for_step context) = Ok v ->
        (render_prompt base_evaluate render_template context
           = Raise (ApplicationError
                      "Invalid prompt expression, expected a string or list")
         <-> is_str v = false /\ is_message_list v = false)).
Proof.
  intros H.
  destruct (H (evaluate_stub (VList [VInt 1])) render_stub greeting_context
              "$_ 'hi ' + inputs[0]['name']" (VList [VInt 1])
              eq_refl eq_refl eq_refl) as [_ Hraise].
  discriminate Hraise. split; reflexivity.
Qed.
(** X2 at [search_context]. *)
Lemma tools_mapping_resolves_witness :
  with_tool_stubs formatted_tools search_context = Ok [search_descriptor]
  /\ exists mapping,
      tools_mapping [search_descriptor] (tools search_context) = Ok mapping
      /\ (forall tool,
            tool ∈ tools search_context ->
            exists tool',
              mapping !! Some (name tool) = Some tool'
              /\ tool' ∈ tools search_context /\ name tool' = name tool)
      /\ (NoDup (name <$> tools search_context) ->
          forall tool,
            tool ∈ tools search_context -> mapping !! Some (name tool) = Some tool)
      /\ (forall k tool,
            mapping !! k = Some tool ->
            tool ∈ tools search_context /\ k = Some (name tool)).
Proof.
  split; [reflexivity|].
  exact (with_tool_stubs tools_mapping_resolves search_context [search_descriptor] eq_refl).
Defined.

(** X3 at a call of [search]. *)
Lemma rekey_call_shape_witness :
  ((({[ Some "search" := search_tool ]} : gmap key Tool) !! Some "search" = Some search_tool)
   /\ type_property search_tool <> Some "function")
  /\ rekey_call {[ Some "search" := search_tool ]}
       {[ Some "function" :=
            VDict {[ Some "name" := VStr "search"; Some "arguments" := VStr "{}" ]} ]}
     = Ok {[ Some "type" := VStr "api_call";
             Some "api_call" :=
               VDict {[ Some "name" := VStr "search"; Some "arguments" := VStr "{}" ]} ]}.
Proof.
  split; [split; [reflexivity | discriminate]|].
  refine (proj2 (rekey_call_shape {[ Some "search" := search_tool ]} "search" (VStr "{}")
                   search_tool eq_refl _)).
  discriminate.
Defined.

(** *** The added properties at concrete inputs *)

(** A step that sets a tool choice, its own tools and a label, with
    [settings] holding one entry. *)
Definition tool_choice_context : StepContext :=
  {| current_step :=
       {| prompt := VStr "Pick a tool"; unwrap := false; disable_cache := false;
          model_dump_unset :=
            {[ Some "prompt" := VStr "Pick a tool";
               Some "label" := VStr "pick";
               Some "tools" := VList [VStr "search"];
               Some "tool_choice" := VStr "auto";
               Some "settings" := VDict {[ Some "max_tokens" := VInt 100 ]} ]} |};
     agent := {| default_settings := None; model := Some "gpt-4o" |};
     tools := [search_tool];
     prepare_for_step := ∅ |}.

(** X6 at [tool_choice_context]: the tool choice is not passed. *)
Lemma passed_settings_tool_choice_witness :
  (passed_settings tool_choice_context = Ok {[ Some "max_tokens" := VInt 100 ]}
   /\ truthy (dict_get (step_settings tool_choice_context) "tools") = false)
  /\ ({[ Some "max_tokens" := VInt 100 ]} : gmap key value) !! Some "tool_choice" = None.
Proof.
  split; [split; reflexivity|].
  exact (passed_settings_tool_choice tool_choice_context
           {[ Some "max_tokens" := VInt 100 ]} eq_refl eq_refl).
Defined.

(** X7 at [tool_choice_context]. *)
Lemma passed_settings_overlay_witness :
  passed_settings tool_choice_context = Ok {[ Some "max_tokens" := VInt 100 ]}
  /\ forall k,
      k ∈ (excluded_keys ++ ["settings"])%list ->
      step_settings tool_choice_context !! Some k = None ->
      ({[ Some "max_tokens" := VInt 100 ]} : gmap key value) !! Some k = None.
Proof.
  split; [reflexivity|].
  exact (proj1 (proj2 (passed_settings_overlay tool_choice_context
                         {[ Some "max_tokens" := VInt 100 ]} eq_refl))).
Defined.

(** A prompt with a system message and a named user message. *)
Definition briefing : list value :=
  [VDict {[ Some "role" := VStr "system"; Some "content" := VStr "Be brief." ]};
   VDict {[ Some "role" := VStr "user"; Some "name" := VStr "ada";
            Some "content" := VStr "Open the browser." ]}].

Definition briefing_sent : list value :=
  [VDict {[ Some "role" := VStr "user"; Some "content" := VStr "Be brief." ]};
   VDict {[ Some "role" := VStr "user"; Some "content" := VStr "Open the browser." ]}].

(** X9 at [briefing]. *)
Lemma anthropic_prompt_user_roles_witness :
  anthropic_prompt briefing = Ok briefing_sent
  /\ length briefing_sent = length briefing
  /\ forall i message',
      briefing_sent !! i = Some message' ->
      exists message c,
        briefing !! i = Some message
        /\ getitem message "content" = Ok c
        /\ message' = VDict {[ Some "role" := VStr "user"; Some "content" := c ]}.
Proof.
  split; [reflexivity|].
  exact (anthropic_prompt_user_roles briefing briefing_sent eq_refl).
Defined.

(** X10 at a prompt whose message has no content. *)
Lemma anthropic_prompt_raises_witness :
  anthropic_prompt [VDict {[ Some "role" := VStr "user" ]}] = Raise (KeyError "content")
  /\ exists message,
      message ∈ [VDict {[ Some "role" := VStr "user" ]}]
      /\ getitem message "content" = Raise (KeyError "content").
Proof.
  split; [reflexivity|].
  exact (anthropic_prompt_raises [VDict {[ Some "role" := VStr "user" ]}]
           (KeyError "content") eq_refl).
Defined.

Definition computer_descriptor : gmap key value :=
  {[ Some "type" := VStr "computer_20241022";
     Some "name" := VStr "computer";
     Some "display_width_px" := VInt 1024;
     Some "display_height_px" := VInt 768;
     Some "display_number" := VInt 1 ]}.

(** X11 at a native descriptor beside a function-shaped one. *)
Lemma filtered_tools_native_witness :
  filtered_tools [search_descriptor; computer_descriptor] = Ok [computer_descriptor]
  /\ any_native_tool [search_descriptor; computer_descriptor]
     = Ok (negb (Nat.eqb (length [computer_descriptor]) 0)).
Proof.
  split; [reflexivity|].
  exact (proj2 (proj2 (filtered_tools_native [search_descriptor; computer_descriptor]
                         [computer_descriptor] eq_refl))).
Defined.

Definition done_claude : Anthropic.BetaMessage :=
  {| Anthropic.id := "msg_2";
     Anthropic.content := [Anthropic.TextBlock "The browser is open."];
     Anthropic.model := "claude-3-5-sonnet-20241022";
     Anthropic.stop_reason := Some "end_turn" |}.

(** X12 at [done_claude]. *)
Lemma unwrap_claude_response_witness :
  (exists response, claude_model_response 0 uuid_stub json_stub done_claude = Ok response)
  /\ forall response,
      claude_model_response 0 uuid_stub json_stub done_claude = Ok response ->
      length (Litellm.choices response) = 1%nat.
Proof.
  split; [eexists; reflexivity|].
  intros response H.
  exact (proj1 (unwrap_claude_response 0 uuid_stub json_stub done_claude response H)).
Defined.

(** A function tool of the same name as [search_tool], listed after it. *)
Definition search_function_tool : Tool :=
  {| name := "search"; description := Some "Search a local index";
     function := Some {| parameters := VNone |};
     integration := None; system := None; api_call := None;
     computer_20241022 := None; text_editor_20241022 := None;
     bash_20241022 := None |}.

Definition two_searches_context : StepContext :=
  {| current_step :=
       {| prompt := VStr "Search"; unwrap := false; disable_cache := false;
          model_dump_unset := ∅ |};
     agent := {| default_settings := None; model := Some "gpt-4o" |};
     tools := [search_tool; search_function_tool];
     prepare_for_step := ∅ |}.

(** X15 at [two_searches_context]: the later tool is the one found. *)
Lemma tools_mapping_last_wins_witness :
  tools two_searches_context = ([search_tool] ++ search_function_tool :: [])%list
  /\ exists ftools mapping,
      with_tool_stubs formatted_tools two_searches_context = Ok ftools
      /\ tools_mapping ftools (tools two_searches_context) = Ok mapping
      /\ mapping !! Some "search" = Some search_function_tool.
Proof.
  split; [reflexivity|].
  eexists. eexists. split; [reflexivity|]. split; [reflexivity|].
  refine (with_tool_stubs tools_mapping_last_wins two_searches_context _ _
            [search_tool] [] search_function_tool eq_refl eq_refl eq_refl _).
  intros tool' Hin. apply elem_of_nil in Hin. contradiction.
Defined.


(** A response that calls the function tool [get_weather_tool]. *)
Definition weather_call : Litellm.ChatCompletionMessageToolCall :=
  {| Litellm.call_id := "call_7"; Litellm.call_type := "function";
     Litellm.function :=
       {| Litellm.name := "get_weather";
          Litellm.arguments := "{" ++ quoted "city" ++ ": " ++ quoted "Paris" ++ "}" |} |}.

Definition weather_response
  : Litellm.ModelResponse Litellm.ChatCompletionMessageToolCall :=
  {| Litellm.id := "chatcmpl-4";
     Litellm.choices :=
       [{| Litellm.message :=
             {| Litellm.role := "assistant"; Litellm.content := None;
                Litellm.tool_calls := Some [weather_call] |};
           Litellm.finish_reason := "tool_calls" |}];
     Litellm.created := 1730000000; Litellm.model := "gpt-4o";
     Litellm.object := "chat.completion" |}.

(** X28 at [weather_response], whose choice finished with
    ["tool_calls"] and calls a function tool. *)
Lemma rekey_response_unchanged_witness :
  (Litellm.finish_reason <$> Litellm.choices weather_response = ["tool_calls"]
   /\ ({[ Some "get_weather" := get_weather_tool ]} : gmap key Tool)
        !! Some (Litellm.name (Litellm.function weather_call))
      = Some get_weather_tool
   /\ type_property get_weather_tool = Some "function")
  /\ rekey_response {[ Some "get_weather" := get_weather_tool ]} weather_response
     = Ok {| output := OutputResponse (Litellm.model_dump weather_response);
             next := None |}.
Proof.
  split; [repeat split|].
  apply (rekey_response_unchanged {[ Some "get_weather" := get_weather_tool ]}
           weather_response).
  intros choice Hin Hfr. apply list_elem_of_singleton in Hin. subst choice.
  exists [weather_call]. split; [reflexivity|].
  intros call Hcall. apply list_elem_of_singleton in Hcall. subst call.
  exists get_weather_tool. split; reflexivity.
Defined.

End PromptStep.

(** ** [autogen/openapi_model.py]: validation of the steps of a workflow *)

Module WorkflowValidation.

(** The step classes of the generated models. *)
Inductive step_class : Type :=
| EvaluateStep | ToolCallStep | PromptStep | GetStep | SetStep | LogStep
| ReturnStep | SleepStep | ErrorWorkflowStep | YieldStep | WaitForInputStep
| IfElseWorkflowStep | SwitchStep | ForeachStep | ParallelStep | MapReduceStep.

(** The table from step types to classes (sixteen distinct keys). *)
Definition step_type_to_class : gmap string step_class :=
  list_to_map
    [ ("evaluate", EvaluateStep);
      ("tool_call", ToolCallStep);
      ("prompt", PromptStep);
      ("get", GetStep);
      ("set", SetStep);
      ("log", LogStep);
      ("return", ReturnStep);
      ("sleep", SleepStep);
      ("error", ErrorWorkflowStep);
      ("yield", YieldStep);
      ("wait_for_input", WaitForInputStep);
      ("if_else", IfElseWorkflowStep);
      ("switch", SwitchStep);
      ("foreach", ForeachStep);
      ("parallel", ParallelStep);
      ("map", MapReduceStep) ].

Section Steps.

(** Calling [step_class] with the single keyword argument
    [step_type = step_content]: [None] when pydantic builds the step, the
    text of the [ValidationError] otherwise. *)
Variable construct : step_class -> string -> value -> option string.

Definition validate_step (step_type step_content : value) : result unit :=
  h ← hash step_type;
  match h with
  | HKey (Some s) =>
      match step_type_to_class !! s with
      | Some step_class =>
          match construct step_class s step_content with
          | None => Ok tt
          | Some e =>
              Raise (ValueError ("Validation error for '" ++ s ++ "' step: " ++ e))
          end
      | None => Raise (ValueError ("Unknown step type '" ++ str step_type ++ "'"))
      end
  | _ => Raise (ValueError ("Unknown step type '" ++ str step_type ++ "'"))
  end.

(** [step[step_type]], the key being the value of [step.get("kind_")]. *)
Definition step_content_of (step : gmap key value) (step_type : value) : result value :=
  h ← hash step_type;
  match h with
  | HKey k =>
      match step !! k with
      | Some c => Ok c
      | None => Raise (KeyError (str step_type))
      end
  | HOther => Raise (KeyError (str step_type))
  end.

(** The loop of [validate_workflow_steps], from the step of index
    [index] on.  [next(iter(step.items()))] raises [StopIteration] on an
    empty step; a [ValueError] of [validate_step] is raised again with the
    index in front, any other exception goes through as it is. *)
Fixpoint validate_workflow_steps_from (index : nat) (steps : list (gmap key value))
  : result unit :=
  match steps with
  | [] => Ok tt
  | step :: rest =>
      if Nat.eqb (size step) 0 then Raise (Raised "StopIteration")
      else
        let step_type := dict_get step "kind_" in
        step_content ← step_content_of step step_type;
        match validate_step step_type step_content with
        | Ok _ => validate_workflow_steps_from (S index) rest
        | Raise (ValueError e) =>
            Raise (ValueError ("Error in step " ++ pretty index ++ ": " ++ e))
        | Raise e => Raise e
        end
  end.

Definition validate_workflow_steps (steps : list (gmap key value)) : result unit :=
  validate_workflow_steps_from 0 steps.

(** A step that validates: its [kind_] names a known step type, it has
    an entry under that name, and the class of that type builds from the
    entry. *)
Definition step_valid (step : gmap key value) : Prop :=
  exists k c cls,
    step !! Some "kind_" = Some (VStr k)
    /\ step !! Some k = Some c
    /\ step_type_to_class !! k = Some cls
    /\ construct cls k c = None.

(** X21.  A step type is accepted exactly when it is one of the sixteen
    of the table and the class of that type builds from the content; any
    other step type, known to no class, is rejected as unknown whatever
    the content is. *)
Theorem validate_step_accepts (s : string) (step_content : value) :
  (validate_step (VStr s) step_content = Ok tt
   <-> exists cls, step_type_to_class !! s = Some cls
                   /\ construct cls s step_content = None)
  /\ (step_type_to_class !! s = None ->
      validate_step (VStr s) step_content
        = Raise (ValueError ("Unknown step type '" ++ s ++ "'"))).
Proof.
  unfold validate_step. cbn [hash]. rewrite PromptStep.bind_Ok.
  destruct (step_type_to_class !! s) as [cls|].
  - split; [|discriminate].
    destruct (construct cls s step_content) as [e|] eqn:Hc.
    + split; [discriminate|]. intros (cls' & [= <-] & H). congruence.
    + split; [|reflexivity]. intros _. exists cls. split; [reflexivity | exact Hc].
  - split; [|reflexivity]. split; [discriminate|]. intros (cls & H & _). discriminate H.
Qed.

Lemma step_valid_body (step : gmap key value) :
  step_valid step ->
  Nat.eqb (size step) 0 = false
  /\ exists c,
      step_content_of step (dict_get step "kind_") = Ok c
      /\ validate_step (dict_get step "kind_") c = Ok tt.
Proof.
  intros (k & c & cls & Hkind & Hc & Hcls & Hbuild). split.
  - apply Nat.eqb_neq. intros Hsize. apply map_size_empty_inv in Hsize.
    rewrite Hsize, lookup_empty in Hkind. discriminate.
  - exists c. unfold dict_get, step_content_of, validate_step.
    rewrite Hkind. cbn [default from_option id hash]. rewrite !PromptStep.bind_Ok.
    rewrite Hc, Hcls, Hbuild. split; reflexivity.
Qed.

Lemma validate_workflow_steps_from_valid (index : nat)
    (valid rest : list (gmap key value)) :
  Forall step_valid valid ->
  validate_workflow_steps_from index (valid ++ rest)%list
  = validate_workflow_steps_from (index + length valid) rest.
Proof.
  intros H. revert index. induction H as [|step valid Hstep _ IH]; intros index.
  - cbn. rewrite Nat.add_0_r. reflexivity.
  - cbn [app validate_workflow_steps_from length].
    destruct (step_valid_body step Hstep) as (-> & c & -> & Hok).
    rewrite PromptStep.bind_Ok, Hok, IH. f_equal. lia.
Qed.

(** X22.  When a step of a workflow does not validate, the error says
    which: the steps before it all validating, the error of the step of
    index [i] is raised as "Error in step i: ..." with the step's own
    error behind; the steps after it are not looked at. *)
Theorem validate_workflow_steps_reports_index
    (valid rest : list (gmap key value)) (step : gmap key value)
    (k : string) (c : value) (e : string) :
  Forall step_valid valid ->
  step !! Some "kind_" = Some (VStr k) ->
  step !! Some k = Some c ->
  validate_step (VStr k) c = Raise (ValueError e) ->
  validate_workflow_steps (valid ++ step :: rest)%list
  = Raise (ValueError ("Error in step " ++ pretty (length valid) ++ ": " ++ e)).
Proof.
  intros Hvalid Hkind Hc He. unfold validate_workflow_steps.
  rewrite (validate_workflow_steps_from_valid 0 valid _ Hvalid).
  cbn [validate_workflow_steps_from Nat.add].
  assert (Nat.eqb (size step) 0 = false) as ->.
  { apply Nat.eqb_neq. intros Hsize. apply map_size_empty_inv in Hsize.
    rewrite Hsize, lookup_empty in Hkind. discriminate. }
  unfold dict_get, step_content_of. rewrite Hkind. cbn [default from_option id hash].
  rewrite PromptStep.bind_Ok, Hc, PromptStep.bind_Ok, He. reflexivity.
Qed.

(** X23.  The steps of a workflow are accepted exactly when each of them
    validates. *)
Theorem validate_workflow_steps_accepts (steps : list (gmap key value)) :
  validate_workflow_steps steps = Ok tt <-> Forall step_valid steps.
Proof.
  unfold validate_workflow_steps. generalize 0%nat as index.
  induction steps as [|step steps IH]; intros index.
  - split; [constructor | reflexivity].
  - split.
    + cbn [validate_workflow_steps_from].
      destruct (Nat.eqb (size step) 0) eqn:Hsize; [discriminate|].
      unfold step_content_of, dict_get.
      destruct (step !! Some "kind_") as [step_type|] eqn:Hkind; cbn [default from_option id].
      * destruct step_type as [| | |k| | |]; cbn [hash];
          rewrite ?PromptStep.bind_Ok, ?PromptStep.bind_Raise; try discriminate.
        -- destruct (step !! None) as [c|]; [rewrite PromptStep.bind_Ok|discriminate].
           unfold validate_step. cbn [hash]. rewrite PromptStep.bind_Ok. discriminate.
        -- destruct (step !! Some k) as [c|] eqn:Hc;
             [rewrite PromptStep.bind_Ok|discriminate].
           unfold validate_step. cbn [hash]. rewrite PromptStep.bind_Ok.
           destruct (step_type_to_class !! k) as [cls|] eqn:Hcls; [|discriminate].
           destruct (construct cls k c) as [e|] eqn:Hbuild; [discriminate|].
           intros H. constructor; [|apply (IH (S index)); exact H].
           exists k, c, cls. auto.
      * cbn [hash]. rewrite PromptStep.bind_Ok.
        destruct (step !! None) as [c|]; [rewrite PromptStep.bind_Ok|discriminate].
        unfold validate_step. cbn [hash]. rewrite PromptStep.bind_Ok. discriminate.
    + intros H. inversion H as [|? ? Hstep Hsteps]; subst.
      change (step :: steps) with ([step] ++ steps)%list.
      rewrite (validate_workflow_steps_from_valid index [step] steps)
        by (constructor; [exact Hstep | constructor]).
      apply IH. exact Hsteps.
Qed.

(** X24.  A step that has entries but no [kind_] is not reported as an
    invalid step: looking its content up under [None] raises a
    [KeyError], which leaves [validate_workflow_steps] without the index
    in front. *)
Theorem validate_workflow_steps_no_kind
    (valid rest : list (gmap key value)) (step : gmap key value) :
  Forall step_valid valid ->
  Nat.eqb (size step) 0 = false ->
  step !! Some "kind_" = None ->
  step !! None = None ->
  validate_workflow_steps (valid ++ step :: rest)%list = Raise (KeyError "None").
Proof.
  intros Hvalid Hsize Hkind Hnone. unfold validate_workflow_steps.
  rewrite (validate_workflow_steps_from_valid 0 valid _ Hvalid).
  cbn [validate_workflow_steps_from Nat.add]. rewrite Hsize.
  unfold dict_get, step_content_of. rewrite Hkind. cbn [default from_option id hash].
  rewrite PromptStep.bind_Ok, Hnone. reflexivity.
Qed.

End Steps.

(** A construction that fails on an empty content, to run the loop on. *)
Definition rejects_none (cls : step_class) (step_type : string) (step_content : value)
  : option string :=
  match step_content with
  | VNone => Some "1 validation error"
  | _ => None
  end.

Definition evaluate_step : gmap key value :=
  {[ Some "kind_" := VStr "evaluate";
     Some "evaluate" := VDict {[ Some "x" := VStr "1 + 2" ]} ]}.

Definition broken_log_step : gmap key value :=
  {[ Some "kind_" := VStr "log"; Some "log" := VNone ]}.

Definition kindless_step : gmap key value :=
  {[ Some "evaluate" := VDict {[ Some "x" := VStr "1 + 2" ]} ]}.

Lemma evaluate_step_valid : step_valid rejects_none evaluate_step.
Proof.
  exists "evaluate", (VDict {[ Some "x" := VStr "1 + 2" ]}), EvaluateStep.
  repeat split; reflexivity.
Qed.

(** X22 at a workflow whose second step does not build. *)
Lemma validate_workflow_steps_reports_index_witness :
  (Forall (step_valid rejects_none) [evaluate_step]
   /\ validate_step rejects_none (VStr "log") VNone
      = Raise (ValueError "Validation error for 'log' step: 1 validation error"))
  /\ validate_workflow_steps rejects_none [evaluate_step; broken_log_step; evaluate_step]
     = Raise (ValueError
                "Error in step 1: Validation error for 'log' step: 1 validation error").
Proof.
  assert (Forall (step_valid rejects_none) [evaluate_step]) as Hvalid
    by (constructor; [exact evaluate_step_valid | constructor]).
  split; [split; [exact Hvalid | reflexivity]|].
  exact (validate_workflow_steps_reports_index rejects_none [evaluate_step]
           [evaluate_step] broken_log_step "log" VNone
           "Validation error for 'log' step: 1 validation error"
           Hvalid eq_refl eq_refl eq_refl).
Defined.

(** X24 at a workflow whose second step has no [kind_]. *)
Lemma validate_workflow_steps_no_kind_witness :
  (Forall (step_valid rejects_none) [evaluate_step]
   /\ kindless_step !! Some "kind_" = None)
  /\ validate_workflow_steps rejects_none [evaluate_step; kindless_step]
     = Raise (KeyError "None").
Proof.
  assert (Forall (step_valid rejects_none) [evaluate_step]) as Hvalid
    by (constructor; [exact evaluate_step_valid | constructor]).
  split; [split; [exact Hvalid | reflexivity]|].
  exact (validate_workflow_steps_no_kind rejects_none [evaluate_step] []
           kindless_step Hvalid eq_refl eq_refl eq_refl).
Defined.

End WorkflowValidation.

(** ** [models/docs/search_docs_by_embedding.py] *)

Module SearchDocsByEmbedding.

(** The [transform] given to [wrap_in_class] (lines 35-42): the dict
    display evaluates [d["owner_id"]], [d["owner_type"]] and
    [d.get("metadata", {})], and then spreads [d] over the two entries. *)
Definition transform (d : gmap key value) : result (gmap key value) :=
  owner_id ← dict_getitem d "owner_id";
  owner_type ← dict_getitem d "owner_type";
  Ok (d ∪ {[ Some "owner" :=
               VDict {[ Some "id" := owner_id; Some "role" := owner_type ]};
             Some "metadata" := default (VDict ∅) (d !! Some "metadata") ]}).

(** X25.  The transform of a row of the search result fails exactly
    when the row lacks [owner_id] (a [KeyError] for it) or, having it,
    lacks [owner_type]. *)
Theorem transform_raises (d : gmap key value) (e : exn) :
  transform d = Raise e
  <-> (d !! Some "owner_id" = None /\ e = KeyError "owner_id")
      \/ (is_Some (d !! Some "owner_id") /\ d !! Some "owner_type" = None
          /\ e = KeyError "owner_type").
Proof.
  unfold transform, dict_getitem.
  destruct (d !! Some "owner_id") as [owner_id|].
  - rewrite PromptStep.bind_Ok.
    destruct (d !! Some "owner_type") as [owner_type|].
    + rewrite PromptStep.bind_Ok. split; [discriminate|].
      intros [[H _]|(_ & H & _)]; discriminate H.
    + rewrite PromptStep.bind_Raise. split.
      * intros [= <-]. right. split; [eexists; reflexivity | split; reflexivity].
      * intros [[H _]|(_ & _ & ->)]; [discriminate H | reflexivity].
  - rewrite PromptStep.bind_Raise. split.
    + intros [= <-]. left. split; reflexivity.
    + intros [[_ ->]|([x H] & _)]; [reflexivity | discriminate H].
Qed.

(** X26.  The transform never changes a column of the row: every entry
    of the row is in the result as it was, also an [owner] or a
    [metadata] of the row's own.  It adds [owner], made of the row's
    [owner_id] and [owner_type], and an empty [metadata], only where the
    row has no such column, and adds nothing else. *)
Theorem transform_keeps_row (d r : gmap key value) :
  transform d = Ok r ->
  (forall k, is_Some (d !! k) -> r !! k = d !! k)
  /\ (d !! Some "owner" = None ->
      exists owner_id owner_type,
        d !! Some "owner_id" = Some owner_id
        /\ d !! Some "owner_type" = Some owner_type
        /\ r !! Some "owner"
           = Some (VDict {[ Some "id" := owner_id; Some "role" := owner_type ]}))
  /\ (d !! Some "metadata" = None -> r !! Some "metadata" = Some (VDict ∅))
  /\ (forall k, is_Some (r !! k)
                <-> is_Some (d !! k) \/ k = Some "owner" \/ k = Some "metadata").
Proof.
  unfold transform, dict_getitem.
  destruct (d !! Some "owner_id") as [owner_id|] eqn:Hid; [|discriminate].
  rewrite PromptStep.bind_Ok.
  destruct (d !! Some "owner_type") as [owner_type|] eqn:Hty; [|discriminate].
  rewrite PromptStep.bind_Ok. intros [= <-].
  repeat apply conj.
  - intros k [v Hv]. rewrite Hv. apply lookup_union_Some_l. exact Hv.
  - intros Howner. exists owner_id, owner_type.
    split; [reflexivity|]. split; [reflexivity|].
    rewrite lookup_union_r by exact Howner. apply lookup_insert_eq.
  - intros Hmeta. rewrite lookup_union_r by exact Hmeta.
    rewrite lookup_insert_ne by discriminate.
    rewrite lookup_singleton_eq, Hmeta. reflexivity.
  - intros k. rewrite lookup_union_is_Some.
    rewrite lookup_insert_is_Some', lookup_singleton_is_Some.
    split.
    + intros [H|[H|H]]; [left; exact H | right; left; congruence
                        | right; right; congruence].
    + intros [H|[H|H]]; [left; exact H | right; left; congruence
                        | right; right; congruence].
Qed.

(** *** The metadata filter of the query (lines 75-80 and 100) *)

(** [sep.join(parts)]. *)
Fixpoint join (sep : string) (parts : list string) : string :=
  match parts with
  | [] => ""
  | [part] => part
  | part :: rest => part ++ sep ++ join sep rest
  end.

Section MetadataFilter.

(** [json.dumps] on the keys and on the values of the filter. *)
Variable dumps_key : string -> string.
Variable dumps : value -> string.

Definition metadata_filter_str (metadata_filter : list (string * value)) : string :=
  join ", "
    ((fun kv => "metadata->" ++ dumps_key kv.1 ++ " == " ++ dumps kv.2)
       <$> metadata_filter).

(** The text spliced into the query after the index lookup. *)
Definition metadata_filter_clause (metadata_filter : list (string * value)) : string :=
  let metadata_filter_str := metadata_filter_str metadata_filter in
  if truthy (VStr (strip metadata_filter_str)) then ", " ++ metadata_filter_str
  else "".

Lemma strip_nonspace (c : ascii) (s : string) :
  isspace c = false -> strip (String c s) <> "".
Proof.
  intros Hc. unfold strip. cbn [lstrip]. rewrite Hc. cbn [rstrip].
  destruct (rstrip s); [rewrite Hc|]; discriminate.
Qed.

Lemma join_metadata_cons (kv : string * value) (rest : list (string * value)) :
  exists s, metadata_filter_str (kv :: rest) = String "m" s.
Proof.
  unfold metadata_filter_str. cbn [fmap list_fmap].
  destruct ((fun kv0 : string * value => _) <$> rest) eqn:Hrest.
  - cbn. eexists. reflexivity.
  - cbn [join]. cbn. eexists. reflexivity.
Qed.

(** X27.  A metadata filter is never dropped from the query: with no
    entry the clause is empty, and with at least one it is [", "]
    followed by the conditions of the entries, the first of which begins
    the clause with [", metadata->"]. *)
Theorem metadata_filter_clause_present (metadata_filter : list (string * value)) :
  (metadata_filter = [] -> metadata_filter_clause metadata_filter = "")
  /\ (metadata_filter <> [] ->
      metadata_filter_clause metadata_filter
        = ", " ++ metadata_filter_str metadata_filter
      /\ exists rest,
          metadata_filter_clause metadata_filter = ", metadata->" ++ rest).
Proof.
  split.
  - intros ->. reflexivity.
  - intros Hne. destruct metadata_filter as [|kv rest]; [contradiction|].
    unfold metadata_filter_clause.
    destruct (join_metadata_cons kv rest) as [s Hs].
    assert (truthy (VStr (strip (metadata_filter_str (kv :: rest)))) = true) as ->.
    { rewrite Hs. cbn [truthy].
      destruct (String.eqb_spec (strip (String "m" s)) ""); [|reflexivity].
      exfalso. eapply strip_nonspace; [|eassumption]. reflexivity. }
    split; [reflexivity|].
    unfold metadata_filter_str. cbn [fmap list_fmap].
    destruct ((fun kv0 : string * value => _) <$> rest).
    + cbn. eexists. reflexivity.
    + cbn. eexists. reflexivity.
Qed.

End MetadataFilter.

(** A row of the search result. *)
Definition snippet_row : gmap key value :=
  {[ Some "id" := VStr "doc-1";
     Some "owner_type" := VStr "agent";
     Some "owner_id" := VStr "agent-7";
     Some "title" := VStr "Manual";
     Some "distance" := VInt 0 ]}.

(** X26 at [snippet_row]. *)
Lemma transform_keeps_row_witness :
  exists r,
    transform snippet_row = Ok r
    /\ (forall k, is_Some (snippet_row !! k) -> r !! k = snippet_row !! k)
    /\ r !! Some "metadata" = Some (VDict ∅).
Proof.
  eexists. split; [reflexivity|].
  destruct (transform_keeps_row snippet_row _ eq_refl) as (Hkeep & _ & Hmeta & _).
  split; [exact Hkeep | exact (Hmeta eq_refl)].
Defined.

End SearchDocsByEmbedding.
